(** * DSynth wavetable generator: a shallow embedding and its properties

    The development follows the two generator scripts of the repository,
    [scripts/generate_wavetables.py] (called v1 below) and
    [scripts/generate_wavetables_v2.py] (called v2 below).

    Numbers.  A NumPy [float64] is modelled by [float64] below: an exact
    rational (type [Qc]) or one of the three special values of IEEE-754.
    Finite arithmetic is exact (rounding is not modelled, there is one
    zero); the special values follow the IEEE rules NumPy uses, so that
    no arithmetic operation ever raises.

    Effects.  Python exceptions are the [Raise] case of [result]; the
    process state (files, standard output, the global random generator
    of [np.random]) is threaded explicitly. *)

From Stdlib Require Import ZArith QArith Qabs Qcanon Qcabs Qround Lia Lqa.
From stdpp Require Import base tactics option list numbers strings gmap.

Local Open Scope Z_scope.

(** ** Python exceptions and results *)

Inductive exn : Type :=
  | ValueError
  | IndexError
  | OverflowError
  | StructError
  | WaveError
  | OSError (path : string).

Inductive result (A : Type) : Type :=
  | Ok (a : A)
  | Raise (e : exn).
Arguments Ok {A} a.
Arguments Raise {A} e.

Definition result_bind {A B} (f : A → result B) (m : result A) : result B :=
  match m with
  | Ok a => f a
  | Raise e => Raise e
  end.

#[global] Instance result_ret : MRet result := λ A a, Ok a.
#[global] Instance result_mbind : MBind result := λ A B f m, result_bind f m.

(** ** The model of [float64] *)

Inductive float64 : Type :=
  | Fin (q : Qc)
  | PInf
  | NInf
  | NaN.

#[global] Instance float64_eq_dec : EqDecision float64.
Proof. solve_decision. Defined.

Definition is_finite (x : float64) : bool :=
  match x with Fin _ => true | _ => false end.

Definition isnan (x : float64) : bool :=
  match x with NaN => true | _ => false end.

Definition Qc_ltb (a b : Qc) : bool := bool_decide (a < b)%Qc.

(** The sign of a value that is not NaN: [Lt], [Eq] (zero) or [Gt]. *)
Definition fsign (x : float64) : comparison :=
  match x with
  | Fin q => (q ?= 0)%Qc
  | PInf => Gt
  | NInf => Lt
  | NaN => Eq
  end.

Definition inf_of_sign (s : comparison) : float64 :=
  match s with Lt => NInf | Gt => PInf | Eq => NaN end.

Definition sign_mul (s t : comparison) : comparison :=
  match s, t with
  | Eq, _ | _, Eq => Eq
  | Lt, Lt | Gt, Gt => Gt
  | _, _ => Lt
  end.

Definition fopp (x : float64) : float64 :=
  match x with
  | Fin q => Fin (- q)
  | PInf => NInf
  | NInf => PInf
  | NaN => NaN
  end.

Definition fabs (x : float64) : float64 :=
  match x with
  | Fin q => Fin (Qcabs q)
  | PInf | NInf => PInf
  | NaN => NaN
  end.

Definition fadd (x y : float64) : float64 :=
  match x, y with
  | NaN, _ | _, NaN => NaN
  | Fin a, Fin b => Fin (a + b)
  | PInf, NInf | NInf, PInf => NaN
  | PInf, _ | _, PInf => PInf
  | NInf, _ | _, NInf => NInf
  end.

Definition fsub (x y : float64) : float64 := fadd x (fopp y).

Definition fmul (x y : float64) : float64 :=
  match x, y with
  | NaN, _ | _, NaN => NaN
  | Fin a, Fin b => Fin (a * b)
  | _, _ => inf_of_sign (sign_mul (fsign x) (fsign y))
  end.

(** Division never raises in NumPy: a zero divisor gives an infinity or
    NaN (with a warning only). *)
Definition fdiv (x y : float64) : float64 :=
  match x, y with
  | NaN, _ | _, NaN => NaN
  | Fin a, Fin b =>
      if bool_decide (b = 0%Qc) then inf_of_sign (fsign x) else Fin (a / b)
  | Fin _, _ => Fin 0
  | _, Fin _ =>
      inf_of_sign (sign_mul (fsign x) (match fsign y with Eq => Gt | s => s end))
  | _, _ => NaN
  end.

(** [x > y]; every comparison with NaN is false. *)
Definition fgt (x y : float64) : bool :=
  match x, y with
  | NaN, _ | _, NaN => false
  | Fin a, Fin b => Qc_ltb b a
  | PInf, PInf => false
  | PInf, _ => true
  | _, PInf => false
  | NInf, _ => false
  | Fin _, NInf => true
  end.

Definition flt (x y : float64) : bool := fgt y x.

(** [np.maximum]: the larger of two values, NaN if either is NaN. *)
Definition np_maximum (x y : float64) : float64 :=
  if isnan x then x else if isnan y then y else if fgt y x then y else x.

(** [np.max] of a one-dimensional array; it raises [ValueError] on an
    array of size zero (the reduction has no identity). *)
Definition np_max (a : list float64) : result float64 :=
  match a with
  | [] => Raise ValueError
  | x :: rest => Ok (fold_left np_maximum rest x)
  end.

Definition np_abs (a : list float64) : list float64 := fabs <$> a.

(** ** Configuration (both scripts) *)

Definition SAMPLES_PER_CYCLE : Z := 2048.
Definition SAMPLE_RATE : Z := 44100.
Definition OUTPUT_DIR : string := "assets/wavetables".

(** ** The normalizers *)

Module V1.

(** [normalize] of v1, lines 18-23. *)
Definition normalize (samples : list float64) : result (list float64) :=
  max_val ← np_max (np_abs samples);
  if fgt max_val (Fin 0)
  then Ok ((λ x, fdiv x max_val) <$> samples)
  else Ok samples.

End V1.

Module V2.

Definition eps : float64 := Fin (Q2Qc (1 # 10000000000)).

(** The normalization step of v2's [save_wavetable], line 19. *)
Definition normalize (samples : list float64) : result (list float64) :=
  max_val ← np_max (np_abs samples);
  Ok ((λ x, fdiv x (fadd max_val eps)) <$> samples).

End V2.

(** ** Array helpers *)

Definition fZ (n : Z) : float64 := Fin (Qc_of_Z n).

(** A decimal literal [n/d]. *)
Definition dec (n : Z) (d : positive) : float64 := Fin (Q2Qc (n # d)).

(** [np.linspace(start, stop, num, endpoint=False)]: [num] values
    [start + i * step] with [step = (stop - start) / num]; a negative
    [num] raises [ValueError]. *)
Definition linspace_values (start stop : float64) (num : Z) : list float64 :=
  let step := fdiv (fsub stop start) (fZ num) in
  (λ i, fadd (fmul (fZ i) step) start) <$> seqZ 0 num.

Definition np_linspace_open (start stop : float64) (num : Z)
    : result (list float64) :=
  if decide (num < 0) then Raise ValueError
  else Ok (linspace_values start stop num).

(** The phase array shared by all generators (v1 line 34; v2 lines 47
    and 105). *)
Definition phase : list float64 :=
  linspace_values (fZ 0) (fZ 1) SAMPLES_PER_CYCLE.

(** ** Rounding to integers *)

(** Round half to even, the rule of [np.round]. *)
Definition round_half_even (q : Q) : Z :=
  let f := Qfloor q in
  let r := (q - inject_Z f)%Q in
  match (r ?= 1 # 2)%Q with
  | Lt => f
  | Gt => f + 1
  | Eq => if Z.even f then f else f + 1
  end.

Definition np_round (x : float64) : float64 :=
  match x with
  | Fin q => fZ (round_half_even q)
  | _ => x
  end.

Definition np_floor (x : float64) : float64 :=
  match x with
  | Fin q => fZ (Qfloor q)
  | _ => x
  end.

(** ** Quantization (v2 lines 114 and 210; v1 line 101) *)

(** [np.round(buf * L) / L], the bit-crushing step of v2: line 114
    with [L = 32], line 210 with [L = 4]. *)
Definition quantize_sample (L : Z) (x : float64) : float64 :=
  fdiv (np_round (fmul x (fZ L))) (fZ L).

Definition quantize (L : Z) (buf : list float64) : list float64 :=
  quantize_sample L <$> buf.

(** [np.floor(x * 8) / 8], the staircase of v1's entry 11. *)
Definition floor_quantize_sample (L : Z) (x : float64) : float64 :=
  fdiv (np_floor (fmul x (fZ L))) (fZ L).


(** ** Sample and hold (v2 lines 205-208) *)

(** [range(0, stop, step)] for a step that is not negative; Python
    raises [ValueError] on a zero step. *)
Definition py_range_from_0 (stop step : nat) : result (list nat) :=
  match step with
  | O => Raise ValueError
  | S _ => Ok ((λ b, b * step)%nat <$> seq 0 (Nat.div (stop + step - 1) step))
  end.

(** [a[i:j] = v] on a one-dimensional array: the scalar is broadcast
    over the positions [i .. j-1] that exist; the length is unchanged. *)
Definition slice_fill {A} (i j : nat) (v : A) (a : list A) : list A :=
  take i a ++ replicate (Nat.min j (length a) - i) v
           ++ drop (Nat.max i (Nat.min j (length a))) a.

(** A [for] loop over [xs] whose body may raise. *)
Fixpoint for_each {S X} (body : S → X → result S) (xs : list X) (s : S)
    : result S :=
  match xs with
  | [] => Ok s
  | x :: rest => s' ← body s x; for_each body rest s'
  end.

(** The body [binary[i:min(i+downsample, N)] = binary[i]]. *)
Definition hold_block {A} (n downsample : nat) (binary : list A) (i : nat)
    : result (list A) :=
  match binary !! i with
  | Some v => Ok (slice_fill i (Nat.min (i + downsample) n) v binary)
  | None => Raise IndexError
  end.

Definition sample_hold {A} (n downsample : nat) (binary : list A)
    : result (list A) :=
  starts ← py_range_from_0 n downsample;
  for_each (hold_block n downsample) starts binary.

(** ** Library functions that are not interpreted

    The transcendental functions of NumPy, the generator behind
    [np.random] and SciPy's low-pass filter are parameters of the
    development: every property below holds for all of them. *)

Class NumPy : Type := {
  np_pi : float64;
  np_sin : float64 → float64;
  np_tanh : float64 → float64;
  np_sqrt : float64 → float64;
  (** the state of the global generator of [np.random] *)
  rng_state : Type;
  (** [np.random.seed(n)] *)
  rng_seed : Z → rng_state;
  (** one draw from [0, 1) *)
  rng_double : rng_state → float64 * rng_state;
  (** [filtfilt(b, a, x)] with [b, a = butter(4, 0.1)]; the filtered
      signal is as long as the input *)
  butter4_filtfilt : list float64 → list float64;
  butter4_filtfilt_length (x : list float64) :
    length (butter4_filtfilt x) = length x;
}.

(** A small interpretation, to run the definitions on concrete inputs:
    a linear congruential generator, and identity functions in place of
    the transcendental ones and of the filter.  It is not NumPy's. *)
Definition toy_numpy : NumPy := {|
  np_pi := Fin (Q2Qc (355 # 113));
  np_sin := λ x, x;
  np_tanh := λ x, x;
  np_sqrt := λ x, x;
  rng_state := Z;
  rng_seed := λ n, n;
  rng_double := λ g, (Fin (Q2Qc ((g `mod` 1000) # 1000)),
                      (1103515245 * g + 12345) `mod` 2147483648);
  butter4_filtfilt := λ x, x;
  butter4_filtfilt_length := λ x, eq_refl;
|}.

(** ** Bytes and [struct.pack] *)

(** [n] little-endian bytes of [v]. *)
Fixpoint le_bytes (n : nat) (v : Z) : list Z :=
  match n with
  | O => []
  | S n' => v `mod` 256 :: le_bytes n' (v `div` 256)
  end.

(** The unsigned value of little-endian bytes. *)
Fixpoint le_value (bs : list Z) : Z :=
  match bs with
  | [] => 0
  | b :: rest => b + 256 * le_value rest
  end.

(** [struct.pack] of one unsigned integer of [n] bytes (['<H'], ['<I'],
    ['<L']): out of range raises [struct.error]. *)
Definition pack_uint (n : nat) (v : Z) : result (list Z) :=
  if decide (0 ≤ v < 256 ^ Z.of_nat n) then Ok (le_bytes n v)
  else Raise StructError.

(** A bytes literal such as [b'RIFF']. *)
Definition bytes_of (s : string) : list Z :=
  (λ c, Z.of_N (Ascii.N_of_ascii c)) <$> String.list_ascii_of_string s.

(** Field [off .. off+len-1] of a file, read as a little-endian
    unsigned integer. *)
Definition field (off len : nat) (file : list Z) : Z :=
  le_value (take len (drop off file)).

(** ** IEEE-754 binary32

    The bit pattern of a value rounded to the nearest binary32 (ties to
    even): sign bit, eight exponent bits, 23 fraction bits. *)

Definition binary32_inf : Z := 255 * 2 ^ 23.
Definition binary32_nan : Z := 255 * 2 ^ 23 + 2 ^ 22.

(** The pattern of a positive rational; [binary32_inf] when it rounds
    above the largest finite value.  The exponent [e] is the binade of
    [a], not below -126 (below it the value is subnormal); adding the
    rounded significand to [(e + 126) * 2^23] accounts for the hidden
    bit and for a carry into the next binade. *)
Definition binary32_pos (a : Q) : Z :=
  let e0 := Z.log2 (Qnum a) - Z.log2 (Z.pos (Qden a)) in
  let e := if Qle_bool (2 ^ e0)%Q a then e0 else e0 - 1 in
  let e' := Z.max e (-126) in
  let m := round_half_even (a / 2 ^ (e' - 23))%Q in
  Z.min ((e' + 126) * 2 ^ 23 + m) binary32_inf.

Definition binary32 (x : float64) : Z :=
  match x with
  | Fin q =>
      match (q ?= 0)%Qc with
      | Eq => 0
      | Gt => binary32_pos q
      | Lt => 2 ^ 31 + binary32_pos (Qabs q)
      end
  | PInf => binary32_inf
  | NInf => 2 ^ 31 + binary32_inf
  | NaN => binary32_nan
  end.

(** Whether a finite value rounds to an infinity of binary32. *)
Definition float32_overflows (x : float64) : bool :=
  match x with
  | Fin q => bool_decide (binary32_inf ≤ binary32 (fabs x))
  | _ => false
  end.

(** [struct.pack('<f', x)]: four bytes, [OverflowError] when a finite
    value does not fit binary32. *)
Definition pack_f (x : float64) : result (list Z) :=
  if float32_overflows x then Raise OverflowError
  else Ok (le_bytes 4 (binary32 x)).

(** The bytes of an array after [astype(np.float32)]: four per
    sample; a value out of range silently becomes an infinity. *)
Definition float32_payload (samples : list float64) : list Z :=
  samples ≫= (λ x, le_bytes 4 (binary32 x)).

(** ** The [wave] module of the Python standard library (v2)

    [Wave_write] of CPython's [Lib/wave.py], restricted to what
    [save_wavetable] of v2 calls.  The object holds the parameters and
    the bytes written so far; [_form_length_pos] is 4 and
    [_data_length_pos] is 40. *)

Definition WAVE_FORMAT_PCM : Z := 1.
Definition WAVE_FORMAT_IEEE_FLOAT : Z := 3.

Record wave_write : Type := {
  nchannels : Z;
  sampwidth : Z;
  framerate : Z;
  nframes : Z;
  headerwritten : bool;
  datalength : Z;
  datawritten : Z;
  file : list Z;
}.

Definition wave_open : wave_write :=
  {| nchannels := 0; sampwidth := 0; framerate := 0; nframes := 0;
     headerwritten := false; datalength := 0; datawritten := 0; file := [] |}.

Definition setnchannels (n : Z) (w : wave_write) : result wave_write :=
  if decide (datawritten w ≠ 0) then Raise WaveError
  else if decide (n < 1) then Raise WaveError
  else Ok {| nchannels := n; sampwidth := sampwidth w;
             framerate := framerate w; nframes := nframes w;
             headerwritten := headerwritten w; datalength := datalength w;
             datawritten := datawritten w; file := file w |}.

Definition setsampwidth (n : Z) (w : wave_write) : result wave_write :=
  if decide (datawritten w ≠ 0) then Raise WaveError
  else if decide (n < 1 ∨ 4 < n) then Raise WaveError
  else Ok {| nchannels := nchannels w; sampwidth := n;
             framerate := framerate w; nframes := nframes w;
             headerwritten := headerwritten w; datalength := datalength w;
             datawritten := datawritten w; file := file w |}.

Definition setframerate (n : Z) (w : wave_write) : result wave_write :=
  if decide (datawritten w ≠ 0) then Raise WaveError
  else if decide (n ≤ 0) then Raise WaveError
  else Ok {| nchannels := nchannels w; sampwidth := sampwidth w;
             framerate := n; nframes := nframes w;
             headerwritten := headerwritten w; datalength := datalength w;
             datawritten := datawritten w; file := file w |}.

Definition setnframes (n : Z) (w : wave_write) : result wave_write :=
  if decide (datawritten w ≠ 0) then Raise WaveError
  else Ok {| nchannels := nchannels w; sampwidth := sampwidth w;
             framerate := framerate w; nframes := n;
             headerwritten := headerwritten w; datalength := datalength w;
             datawritten := datawritten w; file := file w |}.

(** [setcomptype('NONE', 'not compressed')], the only type accepted. *)
Definition setcomptype_NONE (w : wave_write) : result wave_write :=
  if decide (datawritten w ≠ 0) then Raise WaveError else Ok w.

(** The fields between the two length fields of the 44-byte header:
    [struct.pack('<4s4sLHHLLHH4s', b'WAVE', b'fmt ', 16,
    WAVE_FORMAT_PCM, nchannels, framerate, nchannels*framerate*sampwidth,
    nchannels*sampwidth, sampwidth*8, b'data')]. *)
Definition wave_header_middle (nch rate width : Z) : result (list Z) :=
  f_size ← pack_uint 4 16;
  f_tag ← pack_uint 2 WAVE_FORMAT_PCM;
  f_nch ← pack_uint 2 nch;
  f_rate ← pack_uint 4 rate;
  f_byterate ← pack_uint 4 (nch * rate * width);
  f_align ← pack_uint 2 (nch * width);
  f_bits ← pack_uint 2 (width * 8);
  Ok (bytes_of "WAVE" ++ bytes_of "fmt " ++ f_size ++ f_tag ++ f_nch
        ++ f_rate ++ f_byterate ++ f_align ++ f_bits ++ bytes_of "data").

(** [_write_header(initlength)]. *)
Definition write_header (initlength : Z) (w : wave_write) : result wave_write :=
  let nfr := if decide (nframes w = 0)
             then initlength `div` (nchannels w * sampwidth w)
             else nframes w in
  let dlen := nfr * nchannels w * sampwidth w in
  f_form ← pack_uint 4 (36 + dlen);
  middle ← wave_header_middle (nchannels w) (framerate w) (sampwidth w);
  f_data ← pack_uint 4 dlen;
  Ok {| nchannels := nchannels w; sampwidth := sampwidth w;
        framerate := framerate w; nframes := nfr;
        headerwritten := true; datalength := dlen;
        datawritten := datawritten w;
        file := file w ++ bytes_of "RIFF" ++ f_form ++ middle ++ f_data |}.

(** [_ensure_header_written(datasize)]. *)
Definition ensure_header_written (datasize : Z) (w : wave_write)
    : result wave_write :=
  if headerwritten w then Ok w
  else if decide (nchannels w = 0) then Raise WaveError
  else if decide (sampwidth w = 0) then Raise WaveError
  else if decide (framerate w = 0) then Raise WaveError
  else write_header datasize w.

(** Overwrite the bytes at [pos], as [seek(pos); write(bs)] does. *)
Definition overwrite (pos : nat) (bs : list Z) (f : list Z) : list Z :=
  take pos f ++ bs ++ drop (pos + length bs) f.

(** [_patchheader()]. *)
Definition patchheader (w : wave_write) : result wave_write :=
  if decide (datawritten w = datalength w) then Ok w
  else
    f_form ← pack_uint 4 (36 + datawritten w);
    f_data ← pack_uint 4 (datawritten w);
    Ok {| nchannels := nchannels w; sampwidth := sampwidth w;
          framerate := framerate w; nframes := nframes w;
          headerwritten := headerwritten w; datalength := datawritten w;
          datawritten := datawritten w;
          file := overwrite 40 f_data (overwrite 4 f_form (file w)) |}.

(** [writeframes(data)]: [writeframesraw] and then the header patch. *)
Definition writeframes (data : list Z) (w : wave_write) : result wave_write :=
  w1 ← ensure_header_written (Z.of_nat (length data)) w;
  let w2 := {| nchannels := nchannels w1; sampwidth := sampwidth w1;
               framerate := framerate w1; nframes := nframes w1;
               headerwritten := headerwritten w1; datalength := datalength w1;
               datawritten := datawritten w1 + Z.of_nat (length data);
               file := file w1 ++ data |} in
  if decide (datalength w2 ≠ datawritten w2) then patchheader w2 else Ok w2.

(** [close()], called when the [with] block is left. *)
Definition wave_close (w : wave_write) : result wave_write :=
  w1 ← ensure_header_written 0 w;
  if decide (datalength w1 ≠ datawritten w1) then patchheader w1 else Ok w1.

Module V2Encoder.

(** Lines 28-37 of v2's [save_wavetable]: the bytes of the file once
    the [with] block has been left without an exception. *)
Definition write_wav (samples : list float64) : result (list Z) :=
  w ← setnchannels 1 wave_open;
  w ← setsampwidth 4 w;
  w ← setframerate SAMPLE_RATE w;
  w ← setnframes (Z.of_nat (length samples)) w;
  w ← setcomptype_NONE w;
  w ← for_each (λ w sample, data ← pack_f sample; writeframes data w)
         samples w;
  w ← wave_close w;
  Ok (file w).

End V2Encoder.

(** ** [scipy.io.wavfile.write] (v1)

    SciPy's writer for a one-dimensional [float32] array: an 18-byte
    format chunk (IEEE float, with an empty extension) and a [fact]
    chunk precede the data chunk; the RIFF size is the file size minus
    8; a file above 4 GiB raises [ValueError]. *)

Module V1Encoder.

Definition wavfile_header (rate : Z) (count : nat) : list Z :=
  let bit_depth := 32 in
  let channels := 1 in
  let fmt_chunk_data :=
    le_bytes 2 WAVE_FORMAT_IEEE_FLOAT ++ le_bytes 2 channels
    ++ le_bytes 4 rate ++ le_bytes 4 (rate * (bit_depth `div` 8) * channels)
    ++ le_bytes 2 (channels * (bit_depth `div` 8)) ++ le_bytes 2 bit_depth
    ++ [0; 0] in
  bytes_of "WAVE" ++ bytes_of "fmt "
  ++ le_bytes 4 (Z.of_nat (length fmt_chunk_data)) ++ fmt_chunk_data
  ++ bytes_of "fact" ++ le_bytes 4 4 ++ le_bytes 4 (Z.of_nat count).

Definition wavfile_write (rate : Z) (samples : list float64)
    : result (list Z) :=
  let header := bytes_of "RIFF" ++ [0; 0; 0; 0]
                ++ wavfile_header rate (length samples) in
  let nbytes := Z.of_nat (4 * length samples) in
  if decide (Z.of_nat (length header) - 4 - 4 + (4 + 4 + nbytes) > 4294967295)
  then Raise ValueError
  else
    let body := header ++ bytes_of "data" ++ le_bytes 4 nbytes
                ++ float32_payload samples in
    Ok (overwrite 4 (le_bytes 4 (Z.of_nat (length body) - 8)) body).

End V1Encoder.

(** ** The process: files, standard output, the global generator *)

(** A line printed by the scripts: a literal text, or the line
    [Generated: <name>.wav (<count> samples)] of [save_wavetable]. *)
Inductive line : Type :=
  | Text (s : string)
  | Generated (filename : string) (count : nat).

Section process.
Context `{NumPy}.

(** [fs_denied] holds the paths the process may not create or write:
    touching one raises [OSError]. *)
Record world : Type := {
  fs_files : gmap string (list Z);
  fs_dirs : gset string;
  fs_denied : gset string;
  out_lines : list line;
  np_rng : rng_state;
}.

(** A statement of the script: it returns or raises, and changes the
    process state. *)
Definition M (A : Type) : Type := world → result A * world.

Definition M_ret {A} (a : A) : M A := λ w, (Ok a, w).

Definition M_bind {A B} (f : A → M B) (m : M A) : M B :=
  λ w, match m w with
       | (Ok a, w') => f a w'
       | (Raise e, w') => (Raise e, w')
       end.

Definition lift {A} (r : result A) : M A := λ w, (r, w).

Definition print (l : line) : M unit :=
  λ w, (Ok tt,
        {| fs_files := fs_files w; fs_dirs := fs_dirs w;
           fs_denied := fs_denied w; out_lines := out_lines w ++ [l];
           np_rng := np_rng w |}).

(** [os.makedirs(path, exist_ok=True)]. *)
Definition os_makedirs (path : string) : M unit :=
  λ w, if decide (path ∈ fs_denied w) then (Raise (OSError path), w)
       else (Ok tt,
             {| fs_files := fs_files w; fs_dirs := {[ path ]} ∪ fs_dirs w;
                fs_denied := fs_denied w; out_lines := out_lines w;
                np_rng := np_rng w |}).

Definition set_file (path : string) (content : list Z) (w : world) : world :=
  {| fs_files := <[ path := content ]> (fs_files w); fs_dirs := fs_dirs w;
     fs_denied := fs_denied w; out_lines := out_lines w; np_rng := np_rng w |}.

(** [np.random.seed(n)]. *)
Definition np_random_seed (n : Z) : M unit :=
  λ w, (Ok tt,
        {| fs_files := fs_files w; fs_dirs := fs_dirs w;
           fs_denied := fs_denied w; out_lines := out_lines w;
           np_rng := rng_seed n |}).

(** [np.random.uniform(low, high)]: [low + (high - low) * u] for one
    draw [u] of the global generator. *)
Definition np_random_uniform (low high : float64) : M float64 :=
  λ w, let '(u, g) := rng_double (np_rng w) in
       (Ok (fadd low (fmul (fsub high low) u)),
        {| fs_files := fs_files w; fs_dirs := fs_dirs w;
           fs_denied := fs_denied w; out_lines := out_lines w;
           np_rng := g |}).

(** [np.random.uniform(low, high, n)]: [n] draws in order. *)
Fixpoint np_random_uniform_array (low high : float64) (n : nat)
    : M (list float64) :=
  match n with
  | O => M_ret []
  | S n' => M_bind (λ x, M_bind (λ rest, M_ret (x :: rest))
                           (np_random_uniform_array low high n'))
                   (np_random_uniform low high)
  end.

(** A [for] loop whose body is a statement. *)
Fixpoint for_each_M {S X} (body : S → X → M S) (xs : list X) (s : S) : M S :=
  match xs with
  | [] => M_ret s
  | x :: rest => M_bind (for_each_M body rest) (body s x)
  end.

(** The exit status of the interpreter: 1 after an uncaught
    exception. *)
Definition exit_status {A} (r : result A) : Z :=
  match r with Ok _ => 0 | Raise _ => 1 end.

End process.

(** ** Elementwise array expressions *)

Definition np_zeros (n : Z) : list float64 := replicate (Z.to_nat n) (Fin 0).

Definition np_sign (x : float64) : float64 :=
  match x with
  | NaN => NaN
  | _ => match fsign x with Lt => fZ (-1) | Eq => fZ 0 | Gt => fZ 1 end
  end.

(** [x ** n] for a small positive integer [n]. *)
Fixpoint fpow (x : float64) (n : nat) : float64 :=
  match n with
  | O => fZ 1
  | 1%nat => x
  | S n' => fmul (fpow x n') x
  end.

(** [a += b] on arrays of one length. *)
Definition array_add (a b : list float64) : list float64 := zip_with fadd a b.

#[global] Instance M_mret `{NumPy} : MRet M := @M_ret _.
#[global] Instance M_mbind `{NumPy} : MBind M := @M_bind _.

(** ** The generator v1 ([generate_wavetables.py]) *)

Module V1Run.
Section run.
Context `{NumPy}.

Local Notation "x +. y" := (fadd x y) (at level 50, left associativity).
Local Notation "x -. y" := (fsub x y) (at level 50, left associativity).
Local Notation "x *. y" := (fmul x y) (at level 40, left associativity).
Local Notation "x /. y" := (fdiv x y) (at level 40, left associativity).

(** [wavfile.write(filepath, rate, samples)]: the file is opened (and
    so created or emptied) before anything can raise. *)
Definition wavfile_write (filepath : string) (rate : Z)
    (samples : list float64) : M unit :=
  λ w, if decide (filepath ∈ fs_denied w) then (Raise (OSError filepath), w)
       else match V1Encoder.wavfile_write rate samples with
            | Ok content => (Ok tt, set_file filepath content w)
            | Raise e => (Raise e, set_file filepath [] w)
            end.

Definition wav_path (name : string) : string :=
  OUTPUT_DIR +:+ "/" +:+ name +:+ ".wav".

(** [save_wavetable(name, samples)], lines 25-31. *)
Definition save_wavetable (name : string) (samples : list float64) : M unit :=
  _ ← os_makedirs OUTPUT_DIR;
  samples ← lift (V1.normalize samples);
  _ ← wavfile_write (wav_path name) SAMPLE_RATE samples;
  print (Generated (name +:+ ".wav") (length samples)).

(** [np.sin(k * np.pi * p)]. *)
Definition sin_pi (k p : float64) : float64 := np_sin (k *. np_pi *. p).

(** An array expression over [phase], evaluated elementwise. *)
Definition over_phase (f : float64 → float64) : M (list float64) :=
  mret (f <$> phase).

Definition sine (p : float64) : float64 := sin_pi (fZ 2) p.
Definition sawtooth (p : float64) : float64 := fZ 2 *. p -. fZ 1.
Definition pulse (width p : float64) : float64 :=
  if flt p width then dec 1 1 else dec (-1) 1.
Definition triangle (p : float64) : float64 :=
  if flt p (dec 1 2) then fZ 4 *. p -. fZ 1 else fZ 3 -. fZ 4 *. p.
Definition ppg (p : float64) : float64 :=
  sin_pi (fZ 2) p +. dec 5 10 *. sin_pi (fZ 4) p
  +. dec 3 10 *. sin_pi (fZ 6) p +. dec 2 10 *. sin_pi (fZ 8) p.
Definition hollow (p : float64) : float64 :=
  dec 7 10 *. sin_pi (fZ 4) p +. dec 5 10 *. sin_pi (fZ 6) p
  +. dec 3 10 *. sin_pi (fZ 8) p.
Definition formant (p : float64) : float64 :=
  sin_pi (fZ 2) p +. dec 8 10 *. sin_pi (fZ 4) p
  +. dec 12 10 *. sin_pi (fZ 6) p +. dec 6 10 *. sin_pi (fZ 10) p.
Definition bass (p : float64) : float64 :=
  sin_pi (fZ 2) p +. dec 3 10 *. sin_pi (fZ 4) p
  +. dec 1 10 *. sin_pi (fZ 6) p.

Definition stairs (p : float64) : float64 :=
  np_floor (sin_pi (fZ 2) p *. fZ 8) /. fZ 8.
Definition fractal (p : float64) : float64 :=
  sin_pi (fZ 2) p +. dec 618 1000 *. sin_pi (fZ 3) p
  +. dec 382 1000 *. sin_pi (fZ 5) p +. dec 236 1000 *. sin_pi (fZ 8) p
  +. dec 146 1000 *. sin_pi (fZ 13) p.
Definition crystal (p : float64) : float64 :=
  sin_pi (fZ 2) p +. dec 7 10 *. sin_pi (dec 51 10) p
  +. dec 5 10 *. sin_pi (dec 83 10) p +. dec 3 10 *. sin_pi (dec 127 10) p.
(** Entry 14 draws its noise from the global generator, which nothing
    has seeded. *)
Definition earthquake : M (list float64) :=
  noise ← np_random_uniform_array (fZ (-1)) (fZ 1) (Z.to_nat SAMPLES_PER_CYCLE);
  mret (zip_with
          (λ p n, sin_pi (fZ 2) p +. dec 3 10 *. sin_pi (dec 5 10) p
                  +. dec 1 10 *. n)
          phase noise).
Definition laser (p : float64) : float64 :=
  sin_pi (fZ 2) p *. (fZ 1 +. dec 5 10 *. sin_pi (fZ 32) p).
Definition vowel (p : float64) : float64 :=
  if flt p (dec 33 100)
  then sin_pi (fZ 2) p +. dec 8 10 *. sin_pi (fZ 8) p
  else if flt p (dec 66 100)
  then sin_pi (fZ 2) p +. dec 12 10 *. sin_pi (fZ 4) p
  else sin_pi (fZ 2) p +. dec 3 10 *. sin_pi (fZ 3) p.
Definition binary (p : float64) : float64 :=
  np_sign (sin_pi (fZ 2) p +. dec 5 10 *. sin_pi (fZ 3) p).
Definition alien (p : float64) : float64 :=
  sin_pi (fZ 2) p +. dec 8 10 *. sin_pi (dec 27 10) p
  +. dec 6 10 *. sin_pi (dec 43 10) p +. dec 4 10 *. sin_pi (dec 71 10) p
  +. dec 2 10 *. sin_pi (dec 116 10) p.
(** Entry 19 filters unseeded noise. *)
Definition breath : M (list float64) :=
  breath_noise ← np_random_uniform_array (fZ (-1)) (fZ 1)
                    (Z.to_nat SAMPLES_PER_CYCLE);
  mret (butter4_filtfilt breath_noise).
Definition harmonic_decay (p : float64) : float64 :=
  let decay_factor := fZ 1 -. p in
  sin_pi (fZ 2) p *. decay_factor
  +. dec 5 10 *. sin_pi (fZ 4) p *. fpow decay_factor 2
  +. dec 3 10 *. sin_pi (fZ 6) p *. fpow decay_factor 3
  +. dec 2 10 *. sin_pi (fZ 8) p *. fpow decay_factor 4.

(** The statements [x = <expression>; save_wavetable("<name>", x)] of a
    generator function, in source order: the name and the computation
    of the samples. *)
Definition table : Type := list (string * M (list float64)).

Fixpoint generate (entries : table) : M unit :=
  match entries with
  | [] => mret tt
  | (name, recipe) :: rest =>
      samples ← recipe;
      _ ← save_wavetable name samples;
      generate rest
  end.

(** The body of [generate_classic()], lines 40-91. *)
Definition classic_table : table :=
  [ ("01_Pure_Sine", over_phase sine);
    ("02_Sawtooth", over_phase sawtooth);
    ("03_Square", over_phase (pulse (dec 5 10)));
    ("04_Triangle", over_phase triangle);
    ("05_PWM_25", over_phase (pulse (dec 25 100)));
    ("06_PWM_12", over_phase (pulse (dec 125 1000)));
    ("07_PPG_Classic", over_phase ppg);
    ("08_Hollow", over_phase hollow);
    ("09_Vocal_Formant", over_phase formant);
    ("10_Bass_Guitar", over_phase bass) ].

(** The body of [generate_unique()], lines 97-175. *)
Definition unique_table : table :=
  [ ("11_Stairs", over_phase stairs);
    ("12_Fractal", over_phase fractal);
    ("13_Crystal", over_phase crystal);
    ("14_Earthquake", earthquake);
    ("15_Laser", over_phase laser);
    ("16_Vowel_Morph", over_phase vowel);
    ("17_Binary", over_phase binary);
    ("18_Alien", over_phase alien);
    ("19_Breath", breath);
    ("20_Harmonic_Decay", over_phase harmonic_decay) ].

Definition generate_classic : M unit := generate classic_table.
Definition generate_unique : M unit := generate unique_table.

Definition complete_line : line :=
  Text ("Complete! 20 wavetables saved to: " +:+ OUTPUT_DIR +:+ "/").

(** The main block, lines 181-207, over the two tables its calls run;
    the decoration of the printed lines is left out. *)
Definition main_with (classic unique : table) : M unit :=
  _ ← print (Text "DSynth Wavetable Generator");
  _ ← print (Text "Generating 20 wavetables (2048 samples @ 44.1kHz)");
  _ ← print (Text "Classic Wavetables (10):");
  _ ← generate classic;
  _ ← print (Text "Unique/Experimental Wavetables (10):");
  _ ← generate unique;
  _ ← print complete_line;
  print (Text "Usage: ... Wavetable Index Reference: ...").

Definition main : M unit := main_with classic_table unique_table.

End run.
End V1Run.

(** ** Recipes of v2 ([generate_wavetables_v2.py]) *)

Module V2Unique.
Section recipes.
Context `{NumPy}.

Local Notation "x +. y" := (fadd x y) (at level 50, left associativity).
Local Notation "x *. y" := (fmul x y) (at level 40, left associativity).
Local Notation "x /. y" := (fdiv x y) (at level 40, left associativity).

(** [np.sin(2 * np.pi * f * phase)], scaled by [a]. *)
Definition partial (a f : float64) : list float64 :=
  (λ p, a *. np_sin (fZ 2 *. np_pi *. f *. p)) <$> phase.

(** [for f in fs: buf += a * np.sin(2 * np.pi * f * phase)]. *)
Definition add_partials (a : float64) (fs : list float64)
    (buf : list float64) : list float64 :=
  foldl (λ b f, array_add b (partial a f)) buf fs.

(** Entry 12, lines 121-134: 64 partials with random detuning and
    random phase, drawn after [np.random.seed(42)]. *)
Definition fractal : M (list float64) :=
  _ ← np_random_seed 42;
  fractal ← for_each_M
    (λ fractal h,
       detune ← np_random_uniform (dec (-2) 100) (dec 2 100);
       let freq := fZ h *. (dec 1 1 +. detune) in
       let amp := dec 1 1 /. np_sqrt (fZ h) in
       phase_rand ← np_random_uniform (fZ 0) (fZ 2 *. np_pi);
       mret (array_add fractal
               ((λ p, amp *. np_sin (fZ 2 *. np_pi *. freq *. p +. phase_rand))
                  <$> phase)))
    (seqZ 1 64) (np_zeros SAMPLES_PER_CYCLE);
  mret (add_partials (dec 4 10)
          [dec 23 10; dec 37 10; dec 59 10; dec 81 10] fractal).

(** Entry 14, lines 151-163: no random draw. *)
Definition earthquake : list float64 :=
  let detuned :=
    foldl (λ b detune,
             array_add
               (array_add b (partial (fZ 1) (dec 1 1 +. detune)))
               (partial (dec 5 10) (dec 5 10 +. detune *. dec 5 10)))
          (np_zeros SAMPLES_PER_CYCLE)
          [dec (-5) 100; dec (-25) 1000; dec (-1) 100; dec 0 1;
           dec 1 100; dec 25 1000; dec 5 100] in
  let with_mids :=
    foldl (λ b h, array_add b (partial (dec 3 10 /. fZ h) (fZ h)))
          detuned [3; 5; 7] in
  (λ x, np_tanh (x *. dec 8 10)) <$> with_mids.

(** Entry 17, lines 200-214: 32 harmonics, sample and hold by 8,
    quantization with 4, four more partials. *)
Definition binary : result (list float64) :=
  let rich :=
    foldl (λ b h, array_add b (partial (dec 1 1 /. fZ h) (fZ h)))
          (np_zeros SAMPLES_PER_CYCLE) (seqZ 1 32) in
  held ← sample_hold (Z.to_nat SAMPLES_PER_CYCLE) 8 rich;
  Ok (add_partials (dec 15 100) [fZ 37; fZ 43; fZ 51; fZ 59]
        (quantize 4 held)).

(** Entry 19, lines 234-245: 128 partials with random phase, drawn
    after [np.random.seed(45)]. *)
Definition breath : M (list float64) :=
  _ ← np_random_seed 45;
  breath ← for_each_M
    (λ breath h,
       let amp := dec 1 1 /. np_sqrt (fZ h) in
       phase_rand ← np_random_uniform (fZ 0) (fZ 2 *. np_pi);
       mret (array_add breath
               ((λ p, amp *. np_sin (fZ 2 *. np_pi *. fZ h *. p +. phase_rand))
                  <$> phase)))
    (seqZ 1 128) (np_zeros SAMPLES_PER_CYCLE);
  mret (add_partials (dec 5 10) [fZ 8; fZ 15; fZ 23; fZ 35; fZ 48] breath).

End recipes.
End V2Unique.

(** ** The [wave] writer, with its file kept when a call raises

    The functions of [Wave_write] above give the writer after a call
    that returns.  The [with] block of v2's [save_wavetable] is left
    through [close()] also when a call raises, and the file then holds
    what was written before the exception.  Here every call gives its
    outcome together with the writer it leaves, statement by statement
    as in [Lib/wave.py].  As above, the header starts the file:
    [_form_length_pos] is 4 and [_data_length_pos] is 40. *)

Module WaveFile.

Definition W (A : Type) : Type := wave_write → result A * wave_write.

Definition W_ret {A} (a : A) : W A := λ w, (Ok a, w).

Definition W_bind {A B} (f : A → W B) (m : W A) : W B :=
  λ w, match m w with
       | (Ok a, w') => f a w'
       | (Raise e, w') => (Raise e, w')
       end.

#[global] Instance W_mret : MRet W := @W_ret.
#[global] Instance W_mbind : MBind W := @W_bind.

Definition get : W wave_write := λ w, (Ok w, w).

Definition modify (f : wave_write → wave_write) : W unit := λ w, (Ok tt, f w).

Definition raise {A} (e : exn) : W A := λ w, (Raise e, w).

(** The value of an expression that may raise, such as [struct.pack]. *)
Definition eval {A} (r : result A) : W A := λ w, (r, w).

(** A setter: it raises before it assigns anything. *)
Definition call (f : wave_write → result wave_write) : W unit :=
  λ w, match f w with
       | Ok w' => (Ok tt, w')
       | Raise e => (Raise e, w)
       end.

Definition with_file (f : list Z) (w : wave_write) : wave_write :=
  {| nchannels := nchannels w; sampwidth := sampwidth w;
     framerate := framerate w; nframes := nframes w;
     headerwritten := headerwritten w; datalength := datalength w;
     datawritten := datawritten w; file := f |}.

Definition with_nframes (n : Z) (w : wave_write) : wave_write :=
  {| nchannels := nchannels w; sampwidth := sampwidth w;
     framerate := framerate w; nframes := n;
     headerwritten := headerwritten w; datalength := datalength w;
     datawritten := datawritten w; file := file w |}.

Definition with_datalength (n : Z) (w : wave_write) : wave_write :=
  {| nchannels := nchannels w; sampwidth := sampwidth w;
     framerate := framerate w; nframes := nframes w;
     headerwritten := headerwritten w; datalength := n;
     datawritten := datawritten w; file := file w |}.

Definition with_datawritten (n : Z) (w : wave_write) : wave_write :=
  {| nchannels := nchannels w; sampwidth := sampwidth w;
     framerate := framerate w; nframes := nframes w;
     headerwritten := headerwritten w; datalength := datalength w;
     datawritten := n; file := file w |}.

Definition with_headerwritten (b : bool) (w : wave_write) : wave_write :=
  {| nchannels := nchannels w; sampwidth := sampwidth w;
     framerate := framerate w; nframes := nframes w;
     headerwritten := b; datalength := datalength w;
     datawritten := datawritten w; file := file w |}.

(** [self._file.write(bs)] at the end of the file. *)
Definition write (bs : list Z) : W unit :=
  modify (λ w, with_file (file w ++ bs) w).

(** [self._file.seek(pos, 0); self._file.write(bs)]. *)
Definition write_at (pos : nat) (bs : list Z) : W unit :=
  modify (λ w, with_file (overwrite pos bs (file w)) w).

(** [_write_header(initlength)]: [b'RIFF'] is on disk before the first
    [struct.pack] can raise. *)
Definition write_header (initlength : Z) : W unit :=
  _ ← write (bytes_of "RIFF");
  _ ← modify (λ w, if decide (nframes w = 0)
                   then with_nframes
                          (initlength `div` (nchannels w * sampwidth w)) w
                   else w);
  _ ← modify (λ w, with_datalength (nframes w * nchannels w * sampwidth w) w);
  w ← get;
  packed ← eval (f_form ← pack_uint 4 (36 + datalength w);
                 middle ← wave_header_middle (nchannels w) (framerate w)
                            (sampwidth w);
                 Ok (f_form ++ middle));
  _ ← write packed;
  f_data ← eval (pack_uint 4 (datalength w));
  _ ← write f_data;
  modify (with_headerwritten true).

(** [_ensure_header_written(datasize)]. *)
Definition ensure_header_written (datasize : Z) : W unit :=
  w ← get;
  if headerwritten w then mret tt
  else if decide (nchannels w = 0) then raise WaveError
  else if decide (sampwidth w = 0) then raise WaveError
  else if decide (framerate w = 0) then raise WaveError
  else write_header datasize.

(** [_patchheader()]. *)
Definition patchheader : W unit :=
  w ← get;
  if decide (datawritten w = datalength w) then mret tt
  else
    f_form ← eval (pack_uint 4 (36 + datawritten w));
    _ ← write_at 4 f_form;
    f_data ← eval (pack_uint 4 (datawritten w));
    _ ← write_at 40 f_data;
    modify (with_datalength (datawritten w)).

(** [writeframesraw(data)]. *)
Definition writeframesraw (data : list Z) : W unit :=
  _ ← ensure_header_written (Z.of_nat (length data));
  _ ← write data;
  modify (λ w, with_datawritten (datawritten w + Z.of_nat (length data)) w).

(** [writeframes(data)]. *)
Definition writeframes (data : list Z) : W unit :=
  _ ← writeframesraw data;
  w ← get;
  if decide (datalength w ≠ datawritten w) then patchheader else mret tt.

(** [close()]. *)
Definition close : W unit :=
  _ ← ensure_header_written 0;
  w ← get;
  if decide (datalength w ≠ datawritten w) then patchheader else mret tt.

(** A [for] loop over [xs] on the writer. *)
Fixpoint for_each {X} (body : X → W unit) (xs : list X) : W unit :=
  match xs with
  | [] => mret tt
  | x :: rest => _ ← body x; for_each body rest
  end.

(** [with wave.open(filepath, 'w') as wav: body]: the outcome of the
    block and the bytes of the file once it is closed.  [__exit__]
    calls [close()] however the body was left; an exception of
    [close()] is the one that leaves the block. *)
Definition with_open (body : W unit) : result unit * list Z :=
  let '(r, w) := body wave_open in
  let '(rc, w') := close w in
  (match rc with Ok _ => r | Raise e => Raise e end, file w').

End WaveFile.

(** ** The generator v2 ([generate_wavetables_v2.py]) *)

(** [np.power] with a real exponent is not interpreted either. *)
Class NumPyPower : Type := {
  np_power : float64 → float64 → float64;
}.

Definition toy_power : NumPyPower := {| np_power := λ x _, x |}.

(** The newline character, and [s * n] on strings. *)
Definition nl : string := String (Ascii.ascii_of_nat 10) EmptyString.

Fixpoint times (n : nat) (s : string) : string :=
  match n with
  | O => EmptyString
  | S n' => s +:+ times n' s
  end.

Module V2Run.
Section run.
Context {np : NumPy} {pw : NumPyPower}.

Local Notation "x +. y" := (fadd x y) (at level 50, left associativity).
Local Notation "x -. y" := (fsub x y) (at level 50, left associativity).
Local Notation "x *. y" := (fmul x y) (at level 40, left associativity).
Local Notation "x /. y" := (fdiv x y) (at level 40, left associativity).

(** The body of the [with] block, lines 29-37. *)
Definition session (samples : list float64) : WaveFile.W unit :=
  _ ← WaveFile.call (setnchannels 1);
  _ ← WaveFile.call (setsampwidth 4);
  _ ← WaveFile.call (setframerate SAMPLE_RATE);
  _ ← WaveFile.call (setnframes (Z.of_nat (length samples)));
  _ ← WaveFile.call setcomptype_NONE;
  WaveFile.for_each
    (λ sample, data ← WaveFile.eval (pack_f sample); WaveFile.writeframes data)
    samples.

(** Lines 28-37: [wave.open(filepath, 'w')] creates or empties the
    file, or raises [OSError]. *)
Definition wave_write_file (filepath : string) (samples : list float64)
    : M unit :=
  λ w, if decide (filepath ∈ fs_denied w) then (Raise (OSError filepath), w)
       else let '(r, content) := WaveFile.with_open (session samples) in
            (r, set_file filepath content w).

(** [save_wavetable(filename, samples)], lines 16-39: the samples are
    normalized before the directory is made. *)
Definition save_wavetable (filename : string) (samples : list float64)
    : M unit :=
  samples ← lift (V2.normalize samples);
  _ ← os_makedirs OUTPUT_DIR;
  _ ← wave_write_file (V1Run.wav_path filename) samples;
  print (Generated (filename +:+ ".wav") (length samples)).

(** [np.sin(2 * np.pi * f * ph)] over an array [ph]. *)
Definition carrier_on (ph : list float64) (f : float64) : list float64 :=
  (λ p, np_sin (fZ 2 *. np_pi *. f *. p)) <$> ph.

(** [for h in range(first, first + count): buf += (c / h) * np.sin(2 * np.pi * h * phase)]. *)
Definition add_harmonics (c : float64) (first count : Z)
    (buf : list float64) : list float64 :=
  foldl (λ b h, array_add b (V2Unique.partial (c /. fZ h) (fZ h)))
        buf (seqZ first count).

(** [for h in hs: buf += (c / h) * np.sin(2 * np.pi * h * 1.414 * phase)]. *)
Definition add_detuned_harmonics (c : float64) (hs : list Z)
    (buf : list float64) : list float64 :=
  foldl (λ b h,
           array_add b
             ((λ p, (c /. fZ h)
                    *. np_sin (fZ 2 *. np_pi *. fZ h *. dec 1414 1000 *. p))
                <$> phase))
        buf hs.

(** *** The classic waveforms, lines 45-97 *)

Definition sine (p : float64) : float64 := np_sin (fZ 2 *. np_pi *. p).
Definition saw (p : float64) : float64 := fZ 2 *. p -. fZ 1.
Definition pulse (width p : float64) : float64 :=
  if flt p width then dec 1 1 else dec (-1) 1.
Definition triangle (p : float64) : float64 :=
  if flt p (dec 1 2) then fZ 4 *. p -. fZ 1 else fZ (-4) *. p +. fZ 3.
Definition ppg : list float64 :=
  add_harmonics (dec 1 1) 1 8 (np_zeros SAMPLES_PER_CYCLE).
Definition hollow (p : float64) : float64 :=
  dec 8 10 *. V1Run.sin_pi (fZ 4) p +. dec 6 10 *. V1Run.sin_pi (fZ 6) p
  +. dec 4 10 *. V1Run.sin_pi (fZ 8) p.
Definition formant (p : float64) : float64 :=
  V1Run.sin_pi (fZ 2) p +. dec 12 10 *. V1Run.sin_pi (fZ 6) p
  +. dec 8 10 *. V1Run.sin_pi (fZ 8) p +. dec 4 10 *. V1Run.sin_pi (fZ 10) p.
Definition bass (p : float64) : float64 :=
  V1Run.sin_pi (fZ 2) p +. dec 4 10 *. V1Run.sin_pi (fZ 4) p
  +. dec 2 10 *. V1Run.sin_pi (fZ 6) p +. dec 1 10 *. V1Run.sin_pi (fZ 8) p.

(** *** The complex waveforms, lines 103-269 *)

(** Entry 11, lines 107-119. *)
Definition glitch : list float64 :=
  let rich := add_harmonics (dec 1 1) 1 24 (np_zeros SAMPLES_PER_CYCLE) in
  let crushed := quantize 32 rich in
  let phase_dist :=
    (λ p, p +. dec 3 10 *. np_sin (fZ 2 *. np_pi *. p)) <$> phase in
  foldl (λ b h,
           array_add b
             ((λ c, dec 2 10 *. c) <$> carrier_on phase_dist (fZ h)))
        crushed [3; 7; 11].

(** Entry 13, lines 136-149. *)
Definition bell_ratios : list float64 :=
  [dec 1 1; dec 2756 1000; dec 5404 1000; dec 8933 1000; dec 13344 1000;
   dec 1864 100; dec 2481 100; dec 3187 100; dec 3986 100; dec 4877 100;
   dec 5865 100; dec 6948 100; dec 8127 100].

Definition crystal : list float64 :=
  let bells :=
    foldl (λ b '(i, ratio),
             let amp := fpow (dec 7 10) i in
             foldl (λ b detune,
                      array_add b
                        (V2Unique.partial (amp /. fZ 3) (ratio +. detune)))
                   b [dec (-3) 1000; dec 0 1; dec 3 1000])
          (np_zeros SAMPLES_PER_CYCLE)
          (zip (seq 0 (length bell_ratios)) bell_ratios) in
  add_detuned_harmonics (dec 1 10) (seqZ 40 40) bells.

(** Entry 15, lines 165-180. *)
Definition laser : list float64 :=
  let carrier_freq := dec 1 1 in
  let modulator_freq := dec 37 10 in
  let mod_index := dec 12 1 in
  let fm1 :=
    (λ p, np_sin (fZ 2 *. np_pi *. carrier_freq *. p
                  +. mod_index *. np_sin (fZ 2 *. np_pi *. modulator_freq *. p)))
      <$> phase in
  let fm2 :=
    (λ p, dec 5 10
          *. np_sin (fZ 2 *. np_pi *. fZ 2 *. p
                     +. dec 8 1 *. np_sin (fZ 2 *. np_pi *. dec 53 10 *. p)))
      <$> phase in
  let shaped := (λ x, np_tanh (x *. dec 3 1)) <$> array_add fm1 fm2 in
  V2Unique.add_partials (dec 2 10) [dec 71 10; dec 113 10; dec 179 10] shaped.

(** Entry 16, lines 182-198. *)
Definition vowel : list float64 :=
  let v := np_zeros SAMPLES_PER_CYCLE in
  let v := array_add v
             ((λ p, dec 8 10 *. np_sin (fZ 2 *. np_pi *. p)) <$> phase) in
  let v := array_add v (V2Unique.partial (dec 12 10) (fZ 17)) in
  let v := array_add v (V2Unique.partial (dec 6 10) (fZ 22)) in
  let v := array_add v (V2Unique.partial (dec 15 10) (dec 55 10)) in
  let v := array_add v (V2Unique.partial (dec 1 1) (fZ 8)) in
  let v := array_add v (V2Unique.partial (dec 7 10) (dec 22 10)) in
  let v := array_add v (V2Unique.partial (dec 5 10) (dec 65 10)) in
  add_harmonics (dec 15 100) 25 40 v.

(** Entry 18, lines 216-232. *)
Definition alien : list float64 :=
  let carrier1 := carrier_on phase (dec 1 1) in
  let carrier2 := carrier_on phase (dec 1618 1000) in
  let carrier3 := carrier_on phase (dec 2718 1000) in
  let a := zip_with fmul (zip_with fmul carrier1 carrier2) carrier3 in
  let a := array_add a ((λ x, dec 6 10 *. x) <$> zip_with fmul carrier1 carrier2) in
  let a := array_add a ((λ x, dec 6 10 *. x) <$> zip_with fmul carrier2 carrier3) in
  let a := array_add a ((λ x, dec 6 10 *. x) <$> zip_with fmul carrier1 carrier3) in
  let a := add_detuned_harmonics (dec 3 10) [3; 5; 7; 11; 13; 17; 19; 23; 29] a in
  (λ x, np_sign x *. np_power (fabs x) (dec 7 10)) <$> a.

(** Entry 20, lines 247-269. *)
Definition resonances : list (float64 * float64) :=
  [(dec 1 1, dec 15 10); (dec 32 10, dec 12 10); (dec 57 10, dec 1 1);
   (dec 89 10, dec 8 10); (dec 134 10, dec 6 10); (dec 192 10, dec 4 10);
   (dec 267 10, dec 3 10); (dec 358 10, dec 2 10)].

Definition resonator : list float64 :=
  let peaks :=
    foldl (λ b '(freq, amp),
             let b := array_add b (V2Unique.partial amp freq) in
             let b := array_add b
                        (V2Unique.partial (amp *. dec 3 10) (freq +. dec 7 100)) in
             array_add b
               (V2Unique.partial (amp *. dec 3 10) (freq -. dec 7 100)))
          (np_zeros SAMPLES_PER_CYCLE) resonances in
  add_harmonics (dec 1 10) 40 60 peaks.

(** The entries of a generator function, saved in order. *)
Fixpoint generate (entries : V1Run.table) : M unit :=
  match entries with
  | [] => mret tt
  | (name, recipe) :: rest =>
      samples ← recipe;
      _ ← save_wavetable name samples;
      generate rest
  end.

(** The body of [generate_classic()], lines 45-97. *)
Definition classic_table : V1Run.table :=
  [ ("01_Pure_Sine", V1Run.over_phase sine);
    ("02_Sawtooth", V1Run.over_phase saw);
    ("03_Square", V1Run.over_phase (pulse (dec 5 10)));
    ("04_Triangle", V1Run.over_phase triangle);
    ("05_PWM_25", V1Run.over_phase (pulse (dec 25 100)));
    ("06_PWM_12", V1Run.over_phase (pulse (dec 125 1000)));
    ("07_PPG_Classic", mret ppg);
    ("08_Hollow", V1Run.over_phase hollow);
    ("09_Vocal_Formant", V1Run.over_phase formant);
    ("10_Bass_Guitar", V1Run.over_phase bass) ].

(** The entries of [generate_unique()], lines 103-269. *)
Definition unique_table : V1Run.table :=
  [ ("11_Stairs", mret glitch);
    ("12_Fractal", V2Unique.fractal);
    ("13_Crystal", mret crystal);
    ("14_Earthquake", mret V2Unique.earthquake);
    ("15_Laser", mret laser);
    ("16_Vowel_Morph", mret vowel);
    ("17_Binary", lift V2Unique.binary);
    ("18_Alien", mret alien);
    ("19_Breath", V2Unique.breath);
    ("20_Harmonic_Decay", mret resonator) ].

Definition generate_classic : M unit := generate classic_table.

Definition generate_unique : M unit :=
  _ ← print (Text (nl +:+ "Generating complex waveforms..."));
  generate unique_table.

(** A run of [print] calls on literal texts. *)
Fixpoint prints (texts : list string) : M unit :=
  match texts with
  | [] => mret tt
  | t :: rest => _ ← print (Text t); prints rest
  end.

Definition banner : list string :=
  [ nl +:+ times 60 "=";
    "  DSynth Advanced Wavetable Generator v2.0";
    "  Generating 20 wavetables (2048 samples @ 44.1kHz)";
    times 60 "=" +:+ nl;
    "📦 Classic Wavetables (10):";
    times 60 "-" ].

Definition unique_heading : list string :=
  [ nl +:+ "✨ Advanced Unique Wavetables (10):"; times 60 "-" ].

Definition closing : list string :=
  [ nl +:+ times 60 "=";
    "✅ Complete! 20 wavetables saved to: " +:+ OUTPUT_DIR +:+ "/";
    times 60 "=";
    nl +:+ "Usage:";
    "  1. Run: cargo build --release";
    "  2. Launch DSynth";
    "  3. Set oscillator waveform to 'Wavetable'";
    "  4. Turn 'Wavetable' knob (0-19) to select different waves";
    "  5. Use 'Position' knob for future morphing feature";
    nl +:+ "Wavetable Index Reference:";
    "  Classic:      0-9  (Sine, Saw, Square, etc.)";
    "  Experimental: 10-19 (Quantum, Fractal, Crystal, etc.)" ].

(** The main block, lines 275-300. *)
Definition main : M unit :=
  _ ← prints banner;
  _ ← generate_classic;
  _ ← prints unique_heading;
  _ ← generate_unique;
  prints closing.

End run.
End V2Run.

(** * Part II: properties *)

(** ** Rational arithmetic helpers *)

Lemma Qc_ltb_true (a b : Qc) : Qc_ltb a b = true ↔ (a < b)%Qc.
Proof. unfold Qc_ltb. apply bool_decide_eq_true. Qed.

Lemma Qc_ltb_false (a b : Qc) : Qc_ltb a b = false ↔ (b ≤ a)%Qc.
Proof.
  unfold Qc_ltb. rewrite bool_decide_eq_false. symmetry. apply Qcle_ngt.
Qed.

Lemma Qcdiv_self (m : Qc) : m ≠ 0%Qc → (m / m)%Qc = 1%Qc.
Proof. intros Hm. unfold Qcdiv. apply Qcmult_inv_r, Hm. Qed.

Lemma Qcabs_div_pos (q m : Qc) :
  (0 < m)%Qc → Qcabs (q / m) = (Qcabs q / m)%Qc.
Proof.
  intros Hm. unfold Qcdiv. rewrite Qcabs_Qcmult. f_equal.
  apply Qcabs_pos, Qclt_le_weak, Qcinv_pos, Hm.
Qed.

Lemma Qcdiv_le_1 (a m : Qc) : (0 < m)%Qc → (a ≤ m)%Qc → (a / m ≤ 1)%Qc.
Proof.
  intros Hm Ha. rewrite <- (Qcdiv_self m) by (by apply Qclt_not_eq in Hm).
  unfold Qcdiv. apply Qcmult_le_mono_nonneg_r; [|done].
  apply Qclt_le_weak, Qcinv_pos, Hm.
Qed.

Lemma Qc_pos_neq_0 (m : Qc) : (0 < m)%Qc → m ≠ 0%Qc.
Proof. intros Hm ->. by apply Qclt_not_eq in Hm. Qed.

Lemma Fin_inj (a b : Qc) : Fin a = Fin b → a = b.
Proof.
  intros H.
  exact (f_equal (λ x, match x with Fin q => q | _ => a end) H).
Qed.

(** ** [np.max] on finite arrays *)

Definition qmax (a b : Qc) : Qc := if Qc_ltb a b then b else a.

Lemma np_maximum_fin (a b : Qc) : np_maximum (Fin a) (Fin b) = Fin (qmax a b).
Proof. unfold np_maximum, qmax; simpl. by destruct (Qc_ltb a b). Qed.

Lemma fold_np_maximum_fin (qs : list Qc) (q : Qc) :
  fold_left np_maximum (Fin <$> qs) (Fin q) = Fin (fold_left qmax qs q).
Proof.
  revert q. induction qs as [|a qs IH]; intros q; [done|].
  simpl. by rewrite np_maximum_fin, IH.
Qed.

Lemma qmax_ge_l (a b : Qc) : (a ≤ qmax a b)%Qc.
Proof.
  unfold qmax. destruct (Qc_ltb a b) eqn:E; [|done].
  by apply Qclt_le_weak, Qc_ltb_true.
Qed.

Lemma qmax_ge_r (a b : Qc) : (b ≤ qmax a b)%Qc.
Proof.
  unfold qmax. destruct (Qc_ltb a b) eqn:E; [done|].
  by apply Qc_ltb_false.
Qed.

Lemma fold_qmax_ge_init (qs : list Qc) (q : Qc) : (q ≤ fold_left qmax qs q)%Qc.
Proof.
  revert q. induction qs as [|a qs IH]; intros q; simpl; [done|].
  etrans; [apply (qmax_ge_l q a)|apply IH].
Qed.

Lemma fold_qmax_ub (qs : list Qc) (q : Qc) :
  Forall (λ a, (a ≤ fold_left qmax qs q)%Qc) qs.
Proof.
  revert q. induction qs as [|a qs IH]; intros q; simpl; constructor.
  - etrans; [apply (qmax_ge_r q a)|apply fold_qmax_ge_init].
  - apply IH.
Qed.

Lemma fold_qmax_elem (qs : list Qc) (q : Qc) :
  fold_left qmax qs q ∈ q :: qs.
Proof.
  revert q. induction qs as [|a qs IH]; intros q; simpl; [apply list_elem_of_here|].
  specialize (IH (qmax q a)). apply elem_of_cons in IH as [IH|IH].
  - rewrite IH. unfold qmax. destruct (Qc_ltb q a).
    + apply list_elem_of_further, list_elem_of_here.
    + apply list_elem_of_here.
  - by do 2 apply list_elem_of_further.
Qed.

(** The fold computes the maximum: the unique element bounding all. *)
Lemma fold_qmax_unique (qs : list Qc) (q m : Qc) :
  m ∈ q :: qs → Forall (λ a, (a ≤ m)%Qc) (q :: qs) →
  fold_left qmax qs q = m.
Proof.
  intros Hin Hub. apply Qcle_antisym.
  - rewrite Forall_forall in Hub. apply Hub, fold_qmax_elem.
  - apply elem_of_cons in Hin as [->|Hin]; [apply fold_qmax_ge_init|].
    pose proof (fold_qmax_ub qs q) as H. rewrite Forall_forall in H. by apply H.
Qed.

Lemma finite_list (l : list float64) :
  Forall (λ x, is_finite x = true) l → ∃ qs, l = Fin <$> qs.
Proof.
  induction 1 as [|x l Hx _ [qs ->]]; [by exists []|].
  destruct x as [q| | |]; try done. by exists (q :: qs).
Qed.

Lemma np_abs_fin (qs : list Qc) : np_abs (Fin <$> qs) = Fin <$> (Qcabs <$> qs).
Proof. unfold np_abs. by rewrite <- !list_fmap_compose. Qed.

Lemma np_max_fin (q : Qc) (qs : list Qc) :
  np_max (Fin <$> q :: qs) = Ok (Fin (fold_left qmax qs q)).
Proof. simpl. by rewrite fold_np_maximum_fin. Qed.

Lemma fdiv_fin_pos (qs : list Qc) (m : Qc) :
  (0 < m)%Qc →
  (λ x, fdiv x (Fin m)) <$> (Fin <$> qs) = Fin <$> ((λ q, q / m)%Qc <$> qs).
Proof.
  intros Hm. rewrite <- !list_fmap_compose. apply list_fmap_ext.
  intros i q _. simpl. by rewrite bool_decide_eq_false_2 by by apply Qc_pos_neq_0.
Qed.

(** The peak of a finite, non-silent array divided by its peak is one. *)
Lemma peak_after_division (q : Qc) (qs : list Qc) :
  let m := fold_left qmax (Qcabs <$> qs) (Qcabs q) in
  (0 < m)%Qc →
  fold_left qmax (Qcabs <$> ((λ a, a / m)%Qc <$> qs)) (Qcabs (q / m)) = 1%Qc.
Proof.
  intros m Hm.
  assert (Hmap : Qcabs (q / m) :: (Qcabs <$> ((λ a, a / m)%Qc <$> qs))
                 = (λ a, a / m)%Qc <$> (Qcabs q :: (Qcabs <$> qs))).
  { simpl. rewrite Qcabs_div_pos by done. f_equal.
    rewrite <- !list_fmap_compose. apply list_fmap_ext.
    intros i a _. simpl. by apply Qcabs_div_pos. }
  apply fold_qmax_unique; rewrite Hmap.
  - rewrite <- (Qcdiv_self m) by by apply Qc_pos_neq_0.
    apply (list_elem_of_fmap_2 (λ a, a / m)%Qc). apply fold_qmax_elem.
  - apply Forall_fmap, Forall_cons. split.
    + simpl. apply Qcdiv_le_1; [done|]. apply fold_qmax_ge_init.
    + eapply Forall_impl; [apply (fold_qmax_ub _ (Qcabs q))|].
      intros a Ha. simpl. by apply Qcdiv_le_1.
Qed.

Lemma np_maximum_cases (x y : float64) : np_maximum x y = x ∨ np_maximum x y = y.
Proof. unfold np_maximum. destruct (isnan x), (isnan y), (fgt y x); auto. Qed.

Lemma fold_np_maximum_elem (l : list float64) (x : float64) :
  fold_left np_maximum l x ∈ x :: l.
Proof.
  revert x. induction l as [|y l IH]; intros x; simpl; [apply list_elem_of_here|].
  specialize (IH (np_maximum x y)). apply elem_of_cons in IH as [IH|IH].
  - rewrite IH. destruct (np_maximum_cases x y) as [->| ->].
    + apply list_elem_of_here.
    + apply list_elem_of_further, list_elem_of_here.
  - by do 2 apply list_elem_of_further.
Qed.

Lemma np_max_elem (l : list float64) (m : float64) : np_max l = Ok m → m ∈ l.
Proof.
  destruct l as [|x l]; simpl; [done|]. intros [= <-]. apply fold_np_maximum_elem.
Qed.

Lemma np_max_nonempty (l : list float64) : l ≠ [] → ∃ m, np_max l = Ok m.
Proof. destruct l; [done|]. intros _. by eexists. Qed.

Lemma fold_np_maximum_zero (l : list float64) :
  Forall (λ x, x = Fin 0) l → fold_left np_maximum l (Fin 0) = Fin 0.
Proof. induction 1 as [|x l -> _ IH]; [done|]. simpl. by rewrite np_maximum_fin. Qed.

Lemma np_max_abs_zero (samples : list float64) :
  samples ≠ [] → Forall (λ x, x = Fin 0) samples →
  np_max (np_abs samples) = Ok (Fin 0).
Proof.
  intros Hne Hz. destruct Hz as [|x l -> Hz]; [done|].
  simpl. rewrite (Qcabs_pos 0) by done. f_equal.
  apply fold_np_maximum_zero. apply Forall_fmap. eapply Forall_impl; [exact Hz|].
  intros y ->. simpl. by rewrite (Qcabs_pos 0).
Qed.

(** [normalize] of v1 on a finite array, in rational arithmetic. *)
Lemma V1_normalize_fin (q : Qc) (qs : list Qc) :
  let m := fold_left qmax (Qcabs <$> qs) (Qcabs q) in
  V1.normalize (Fin <$> q :: qs) =
    if Qc_ltb 0 m then Ok (Fin <$> ((λ a, a / m)%Qc <$> q :: qs))
    else Ok (Fin <$> q :: qs).
Proof.
  intros m. unfold V1.normalize. rewrite np_abs_fin, (fmap_cons Qcabs).
  rewrite (np_max_fin (Qcabs q) (Qcabs <$> qs)). fold m.
  unfold mbind, result_mbind, result_bind.
  change (fgt (Fin m) (Fin 0)) with (Qc_ltb 0 m).
  destruct (Qc_ltb 0 m) eqn:E; [|done].
  apply Qc_ltb_true in E. by rewrite <- fdiv_fin_pos.
Qed.

Lemma Qcdiv_1_r (a : Qc) : (a / 1)%Qc = a.
Proof. apply (right_id 1%Qc Qcdiv). Qed.

(** ** The normalizer of v1 (claims C3 and C9) *)



(** C9.  [normalize] of v1 is idempotent on buffers of finite samples:
    a second pass returns what the first pass returned. *)
Theorem normalize_idempotent (samples : list float64) :
  Forall (λ x, is_finite x = true) samples →
  V1.normalize samples ≫= V1.normalize = V1.normalize samples.
Proof.
  intros Hfin. apply finite_list in Hfin as [qs ->].
  destruct qs as [|q qs]; [done|].
  rewrite V1_normalize_fin. set (m := fold_left qmax (Qcabs <$> qs) (Qcabs q)).
  destruct (Qc_ltb 0 m) eqn:E.
  - apply Qc_ltb_true in E. unfold mbind, result_mbind, result_bind.
    rewrite (fmap_cons (λ a, a / m)%Qc), V1_normalize_fin. cbv zeta.
    pose proof (peak_after_division q qs E) as Hpeak. fold m in Hpeak.
    rewrite Hpeak.
    rewrite (proj2 (Qc_ltb_true 0 1)) by done. do 2 f_equal.
    rewrite <- (list_fmap_id (_ :: _)) at 2.
    apply list_fmap_ext. intros i a _. simpl. apply Qcdiv_1_r.
  - unfold mbind, result_mbind, result_bind.
    rewrite V1_normalize_fin. fold m. by rewrite E.
Qed.

Lemma normalize_idempotent_witness :
  V1.normalize [Fin (Q2Qc (1 # 2)); Fin (Q2Qc (-2))] ≫= V1.normalize
  = V1.normalize [Fin (Q2Qc (1 # 2)); Fin (Q2Qc (-2))].
Proof.
  apply (normalize_idempotent [Fin (Q2Qc (1 # 2)); Fin (Q2Qc (-2))]).
  repeat constructor.
Defined.

(** ** The normalization step of v2 (claim C10) *)

Lemma eps_pos : (0 < Q2Qc (1 # 10000000000))%Qc.
Proof. done. Qed.

Lemma np_abs_elem_cases (samples : list float64) (m : float64) :
  m ∈ np_abs samples → m = NaN ∨ m = PInf ∨ ∃ q, m = Fin q ∧ (0 ≤ q)%Qc.
Proof.
  unfold np_abs. intros [x [-> _]]%list_elem_of_fmap.
  destruct x as [q| | |]; simpl; auto.
  right; right. exists (Qcabs q). split; [done|apply Qcabs_nonneg].
Qed.

Lemma v2_divisor_nonzero (samples : list float64) (m : float64) :
  np_max (np_abs samples) = Ok m → fadd m V2.eps ≠ Fin 0.
Proof.
  intros Hm%np_max_elem%np_abs_elem_cases.
  destruct Hm as [->|[->|(q & -> & Hq)]]; [done..|].
  unfold V2.eps; simpl. intros H%Fin_inj.
  assert (0 < q + Q2Qc (1 # 10000000000))%Qc as Hlt; [|by rewrite H in Hlt].
  by apply Qcplus_nonneg_pos; [|apply eps_pos].
Qed.

Lemma v2_zero_stays_zero : fdiv (Fin 0) (fadd (Fin 0) V2.eps) = Fin 0.
Proof.
  unfold V2.eps, fadd, fdiv. rewrite Qcplus_0_l.
  rewrite bool_decide_eq_false_2 by apply Qc_pos_neq_0, eps_pos.
  by f_equal.
Qed.

(** C10.  The normalization step of v2 is total on every buffer of
    N > 0 samples: it returns a buffer, its divisor [max |x| + 1e-10] is
    never zero, and an all-zero buffer is mapped to itself. *)
Theorem v2_normalize_total (samples : list float64) :
  samples ≠ [] →
  ∃ m, np_max (np_abs samples) = Ok m
     ∧ fadd m V2.eps ≠ Fin 0
     ∧ V2.normalize samples = Ok ((λ x, fdiv x (fadd m V2.eps)) <$> samples)
     ∧ (Forall (λ x, x = Fin 0) samples → V2.normalize samples = Ok samples).
Proof.
  intros Hne.
  destruct (np_max_nonempty (np_abs samples)) as [m Hm].
  { unfold np_abs. by destruct samples. }
  exists m. split; [done|]. split; [by eapply v2_divisor_nonzero|]. split.
  - unfold V2.normalize. by rewrite Hm.
  - intros Hz. unfold V2.normalize. rewrite np_max_abs_zero by done.
    unfold mbind, result_mbind, result_bind. f_equal.
    rewrite <- (list_fmap_id samples) at 2. apply Forall_fmap_ext_1.
    eapply Forall_impl; [exact Hz|]. intros x ->. apply v2_zero_stays_zero.
Qed.

Lemma v2_normalize_total_witness :
  ∃ m, np_max (np_abs [Fin 0; Fin 0]) = Ok m
     ∧ fadd m V2.eps ≠ Fin 0
     ∧ V2.normalize [Fin 0; Fin 0]
         = Ok ((λ x, fdiv x (fadd m V2.eps)) <$> [Fin 0; Fin 0])
     ∧ (Forall (λ x, x = Fin 0) [Fin 0; Fin 0] →
          V2.normalize [Fin 0; Fin 0] = Ok [Fin 0; Fin 0]).
Proof. apply (v2_normalize_total [Fin 0; Fin 0]). discriminate. Defined.

(** ** The phase clock (claim C7) *)






(** The phase array of the scripts is the clock at [N = 2048]. *)
Lemma phase_is_clock :
  np_linspace_open (fZ 0) (fZ 1) SAMPLES_PER_CYCLE = Ok phase
  ∧ length phase = 2048%nat.
Proof.
  split; [done|]. unfold phase, linspace_values.
  by rewrite length_fmap, length_seqZ.
Qed.

(** ** Sample and hold (claim C8) *)

Section sample_hold.
Context {A : Type}.
Implicit Types (a buf s : list A) (v : A) (i j k n K b : nat).

Lemma length_slice_fill i j v a : length (slice_fill i j v a) = length a.
Proof.
  unfold slice_fill.
  rewrite !length_app, length_take, length_replicate, length_drop. lia.
Qed.

Lemma lookup_slice_fill i j v a k :
  (i ≤ j ≤ length a)%nat →
  slice_fill i j v a !! k
  = if decide (i ≤ k < j)%nat then Some v else a !! k.
Proof.
  intros Hij. unfold slice_fill.
  replace (Nat.min j (length a)) with j by lia.
  replace (Nat.max i j) with j by lia.
  destruct (decide (k < i)%nat) as [Hk|Hk].
  - rewrite lookup_app_l by (rewrite length_take; lia).
    rewrite lookup_take_lt by lia. by rewrite decide_False by lia.
  - rewrite lookup_app_r by (rewrite length_take; lia).
    rewrite length_take. replace (Nat.min i (length a)) with i by lia.
    destruct (decide (k < j)%nat) as [Hkj|Hkj].
    + rewrite lookup_app_l by (rewrite length_replicate; lia).
      rewrite decide_True by lia. apply lookup_replicate_2. lia.
    + rewrite lookup_app_r by (rewrite length_replicate; lia).
      rewrite length_replicate, lookup_drop, decide_False by lia.
      f_equal. lia.
Qed.

(** After the blocks before block [b] have been held. *)
Definition held_up_to K b buf s : Prop :=
  length s = length buf ∧
  ∀ j, (j < length buf)%nat →
    s !! j = if decide (j < b * K)%nat then buf !! (j / K * K)%nat
             else buf !! j.

Lemma hold_block_step K b buf s :
  (0 < K)%nat → (b * K < length buf)%nat →
  held_up_to K b buf s →
  ∃ s', hold_block (length buf) K s (b * K) = Ok s'
      ∧ held_up_to K (S b) buf s'.
Proof.
  intros HK Hb [Hlen Hs]. unfold hold_block.
  destruct (lookup_lt_is_Some_2 buf (b * K)%nat Hb) as [v Hv].
  assert (s !! (b * K)%nat = Some v) as ->.
  { rewrite Hs by done. by rewrite decide_False by lia. }
  eexists. split; [done|]. split; [by rewrite length_slice_fill|].
  intros j Hj. rewrite lookup_slice_fill by lia. rewrite Hs by done.
  destruct (decide (b * K ≤ j < Nat.min (b * K + K) (length buf))%nat)
    as [Hin|Hout].
  - rewrite decide_True by lia.
    replace (j / K)%nat with b; [done|].
    apply Nat.div_unique with (j - b * K)%nat; lia.
  - destruct (decide (j < b * K)%nat); [by rewrite decide_True by lia|].
    by rewrite decide_False by lia.
Qed.

Lemma hold_loop K buf c b s :
  (0 < K)%nat → (c = 0 ∨ (b + c - 1) * K < length buf)%nat →
  held_up_to K b buf s →
  ∃ s', for_each (hold_block (length buf) K)
          ((λ b, b * K)%nat <$> seq b c) s = Ok s'
      ∧ held_up_to K (b + c) buf s'.
Proof.
  intros HK. revert b s. induction c as [|c IH]; intros b s Hc Hs.
  - exists s. split; [done|]. by rewrite Nat.add_0_r.
  - destruct (hold_block_step K b buf s) as (s1 & Hs1 & Hinv); [done|nia|done|].
    destruct (IH (S b) s1) as (s' & Hs' & Hinv'); [nia|done|].
    exists s'. split.
    + simpl. rewrite Hs1. exact Hs'.
    + by replace (b + S c)%nat with (S b + c)%nat by lia.
Qed.

(** C8.  Sample-and-hold with hold length [K] on a buffer of [N]
    samples returns a buffer of the same length in which every sample
    of the block starting at index 0, K, 2K, ... has the value of the
    block's first sample. *)
Theorem sample_hold_blocks (K : nat) (buf : list A) :
  (0 < K)%nat →
  ∃ out, sample_hold (length buf) K buf = Ok out
       ∧ length out = length buf
       ∧ ∀ j, (j < length buf)%nat → out !! j = buf !! (j / K * K)%nat.
Proof.
  intros HK. unfold sample_hold, py_range_from_0.
  destruct K as [|K']; [lia|]. set (K := S K') in *.
  set (nb := ((length buf + K - 1) / K)%nat).
  assert (length buf ≤ nb * K)%nat as Hcover.
  { pose proof (Nat.div_mod (length buf + K - 1) K ltac:(lia)) as Hd.
    pose proof (Nat.mod_upper_bound (length buf + K - 1) K ltac:(lia)).
    fold nb in Hd. nia. }
  assert (nb = 0 ∨ (0 + nb - 1) * K < length buf)%nat as Hstarts.
  { destruct nb as [|nb'] eqn:E; [by left|right].
    pose proof (Nat.div_mod (length buf + K - 1) K ltac:(lia)) as Hd.
    fold nb in Hd. rewrite E in Hd. nia. }
  destruct (hold_loop K buf nb 0%nat buf HK Hstarts) as (out & Hout & Hlen & Hl).
  { split; [done|]. intros j Hj. by rewrite decide_False by lia. }
  exists out. split; [exact Hout|]. split; [done|].
  intros j Hj. rewrite Hl by done. by rewrite decide_True by lia.
Qed.
End sample_hold.

Lemma sample_hold_blocks_witness :
  ∃ out, sample_hold (length [1; 2; 3; 4; 5]) 2 [1; 2; 3; 4; 5] = Ok out
       ∧ length out = length [1; 2; 3; 4; 5]
       ∧ ∀ j, (j < length [1; 2; 3; 4; 5])%nat →
              out !! j = [1; 2; 3; 4; 5] !! (j / 2 * 2)%nat.
Proof. apply (sample_hold_blocks 2 [1; 2; 3; 4; 5]). lia. Defined.

Example sample_hold_5_by_2 :
  sample_hold 5 2 [1; 2; 3; 4; 5] = Ok [1; 1; 3; 3; 5].
Proof. reflexivity. Qed.

(** ** Quantization (claim C6) *)














(** The two samples above: 0.3 snaps to 0.25, -0.875 to -1 (the tie
    goes to the even multiple). *)
Example quantize_4_examples :
  round_half_even ((3 # 10) * 4) = 1 ∧ round_half_even ((-7 # 8) * 4) = -4
  ∧ round_half_even ((5 # 8) * 4) = 2.
Proof. by vm_compute. Qed.

(** The staircase of v1 takes the floor, not the nearest level: 0.99
    goes down to 7/8. *)
Example floor_quantize_is_not_nearest :
  Qfloor ((99 # 100) * 8) = 7 ∧ round_half_even ((99 # 100) * 8) = 8.
Proof. by vm_compute. Qed.

(** ** The WAV encoders (claim C2) *)

Lemma length_le_bytes (n : nat) (v : Z) : length (le_bytes n v) = n.
Proof. revert v. induction n as [|n IH]; intros v; simpl; [done|]. by rewrite IH. Qed.

Lemma le_value_le_bytes (n : nat) (v : Z) :
  le_value (le_bytes n v) = v `mod` 256 ^ Z.of_nat n.
Proof.
  revert v. induction n as [|n IH]; intros v.
  - simpl. by rewrite Z.mod_1_r.
  - cbn [le_bytes le_value]. rewrite IH.
    rewrite Nat2Z.inj_succ, Z.pow_succ_r by lia.
    rewrite (Z.mul_comm 256), Z.rem_mul_r by lia. lia.
Qed.

Lemma le_value_le_bytes_small (n : nat) (v : Z) :
  0 ≤ v < 256 ^ Z.of_nat n → le_value (le_bytes n v) = v.
Proof. intros Hv. rewrite le_value_le_bytes. by apply Z.mod_small. Qed.

Lemma pack_uint_ok (n : nat) (v : Z) :
  0 ≤ v < 256 ^ Z.of_nat n → pack_uint n v = Ok (le_bytes n v).
Proof. intros Hv. unfold pack_uint. by rewrite decide_True. Qed.

Lemma overwrite_app (pos : nat) (old new pre post : list Z) :
  length pre = pos → length old = length new →
  overwrite pos new (pre ++ old ++ post) = pre ++ new ++ post.
Proof.
  intros Hpre Hlen. unfold overwrite. subst pos.
  rewrite take_app_length. f_equal. f_equal.
  rewrite drop_app_ge by lia.
  replace (length pre + length new - length pre)%nat with (length old) by lia.
  by rewrite drop_app_length.
Qed.

Lemma field_at (off len : nat) (pre bs post : list Z) :
  length pre = off → length bs = len →
  field off len (pre ++ bs ++ post) = le_value bs.
Proof.
  intros <- <-. unfold field.
  by rewrite drop_app_length, take_app_length.
Qed.

Lemma result_bind_ok {A B} (f : A → result B) (a : A) : Ok a ≫= f = f a.
Proof. done. Qed.

(** The 32 bytes between the two length fields of a file of v2. *)
Definition v2_middle : list Z :=
  bytes_of "WAVE" ++ bytes_of "fmt " ++ le_bytes 4 16
  ++ le_bytes 2 WAVE_FORMAT_PCM ++ le_bytes 2 1 ++ le_bytes 4 44100
  ++ le_bytes 4 176400 ++ le_bytes 2 4 ++ le_bytes 2 32 ++ bytes_of "data".

Definition v2_header (dlen : Z) : list Z :=
  bytes_of "RIFF" ++ le_bytes 4 (36 + dlen) ++ v2_middle ++ le_bytes 4 dlen.

(** The writer once [dlen] bytes of samples have been written. *)
Definition v2_state (n dlen : Z) (payload : list Z) : wave_write :=
  {| nchannels := 1; sampwidth := 4; framerate := 44100; nframes := n;
     headerwritten := true; datalength := dlen; datawritten := dlen;
     file := v2_header dlen ++ payload |}.

(** The writer after the five [set...] calls. *)
Definition v2_configured (n : Z) : wave_write :=
  {| nchannels := 1; sampwidth := 4; framerate := 44100; nframes := n;
     headerwritten := false; datalength := 0; datawritten := 0; file := [] |}.

Lemma v2_middle_ok : wave_header_middle 1 44100 4 = Ok v2_middle.
Proof. reflexivity. Qed.

Lemma length_v2_middle : length v2_middle = 32%nat.
Proof. reflexivity. Qed.

Lemma v2_patch (a b a' b' : Z) (post : list Z) :
  overwrite 40 (le_bytes 4 b')
    (overwrite 4 (le_bytes 4 a')
       (bytes_of "RIFF" ++ le_bytes 4 a ++ v2_middle ++ le_bytes 4 b ++ post))
  = bytes_of "RIFF" ++ le_bytes 4 a' ++ v2_middle ++ le_bytes 4 b' ++ post.
Proof.
  rewrite (overwrite_app 4 (le_bytes 4 a) (le_bytes 4 a'))
    by (by rewrite ?length_le_bytes).
  rewrite (app_assoc (bytes_of "RIFF")), (app_assoc (_ ++ _) v2_middle).
  rewrite (overwrite_app 40 (le_bytes 4 b) (le_bytes 4 b')).
  - by rewrite <- !app_assoc.
  - by rewrite !length_app, length_le_bytes, length_v2_middle.
  - by rewrite !length_le_bytes.
Qed.

Lemma v2_configure (n : Z) :
  (w ← setnchannels 1 wave_open; w ← setsampwidth 4 w;
   w ← setframerate SAMPLE_RATE w; w ← setnframes n w; setcomptype_NONE w)
  = Ok (v2_configured n).
Proof. reflexivity. Qed.

Lemma v2_writeframes_first (n : Z) (data : list Z) :
  1 ≤ n → 36 + 4 * n < 4294967296 → length data = 4%nat →
  writeframes data (v2_configured n) = Ok (v2_state n 4 data).
Proof.
  intros Hn Hbound Hlen. unfold writeframes, ensure_header_written.
  cbn [headerwritten nchannels sampwidth framerate v2_configured].
  rewrite !decide_False by lia. unfold write_header.
  cbn [headerwritten nchannels sampwidth framerate nframes file datawritten
       v2_configured].
  rewrite decide_False by lia.
  rewrite !pack_uint_ok by (change (256 ^ Z.of_nat 4) with 4294967296; lia).
  rewrite v2_middle_ok. rewrite !result_bind_ok.
  cbn [headerwritten nchannels sampwidth framerate nframes file datawritten
       datalength].
  rewrite Hlen. change (Z.of_nat 4) with 4. rewrite Z.add_0_l.
  destruct (decide (n * 1 * 4 ≠ 4)) as [Hne|Heq].
  - unfold patchheader.
    cbn [headerwritten nchannels sampwidth framerate nframes file datawritten
         datalength].
    rewrite decide_False by lia.
    rewrite !pack_uint_ok by (change (256 ^ Z.of_nat 4) with 4294967296; lia).
    rewrite !result_bind_ok. unfold v2_state, v2_header.
    rewrite app_nil_l, <- !app_assoc, v2_patch. reflexivity.
  - assert (n = 1) as -> by lia. reflexivity.
Qed.

Lemma v2_writeframes_next (n dlen : Z) (payload data : list Z) :
  0 ≤ dlen → 36 + dlen + 4 < 4294967296 → length data = 4%nat →
  writeframes data (v2_state n dlen payload)
  = Ok (v2_state n (dlen + 4) (payload ++ data)).
Proof.
  intros Hk Hbound Hlen. unfold writeframes, ensure_header_written.
  cbn [headerwritten v2_state]. rewrite result_bind_ok.
  cbn [headerwritten nchannels sampwidth framerate nframes file datawritten
       datalength v2_state].
  rewrite Hlen. change (Z.of_nat 4) with 4.
  rewrite decide_True by lia. unfold patchheader.
  cbn [headerwritten nchannels sampwidth framerate nframes file datawritten
       datalength v2_state].
  rewrite decide_False by lia.
  rewrite !pack_uint_ok by (change (256 ^ Z.of_nat 4) with 4294967296; lia).
  rewrite !result_bind_ok. unfold v2_state, v2_header.
  rewrite <- !app_assoc, v2_patch. by rewrite Z.add_assoc.
Qed.

Lemma length_float32_payload (samples : list float64) :
  length (float32_payload samples) = (4 * length samples)%nat.
Proof.
  unfold float32_payload. induction samples as [|x l IH]; [done|].
  rewrite bind_cons, length_app, length_le_bytes, IH. simpl. lia.
Qed.

Lemma pack_f_ok (x : float64) :
  float32_overflows x = false → pack_f x = Ok (le_bytes 4 (binary32 x)).
Proof. intros Hx. unfold pack_f. by rewrite Hx. Qed.

Lemma v2_loop (n dlen : Z) (payload : list Z) (rest : list float64) :
  0 ≤ dlen → 36 + dlen + 4 * Z.of_nat (length rest) < 4294967296 →
  Forall (λ x, float32_overflows x = false) rest →
  for_each (λ w sample, data ← pack_f sample; writeframes data w) rest
    (v2_state n dlen payload)
  = Ok (v2_state n (dlen + 4 * Z.of_nat (length rest))
          (payload ++ float32_payload rest)).
Proof.
  intros Hk Hbound Hrest. revert dlen payload Hk Hbound.
  induction Hrest as [|x rest Hx _ IH]; intros dlen payload Hk Hbound.
  - simpl. by rewrite Z.add_0_r, app_nil_r.
  - cbn [for_each]. rewrite (pack_f_ok x Hx), result_bind_ok.
    rewrite length_cons, Nat2Z.inj_succ in Hbound.
    rewrite v2_writeframes_next by (by rewrite ?length_le_bytes; lia).
    rewrite result_bind_ok, IH by lia.
    rewrite length_cons, Nat2Z.inj_succ. unfold float32_payload.
    rewrite bind_cons, <- (app_assoc payload). do 2 f_equal. lia.
Qed.

Lemma v2_close (n dlen : Z) (payload : list Z) :
  wave_close (v2_state n dlen payload) = Ok (v2_state n dlen payload).
Proof.
  unfold wave_close, ensure_header_written. cbn [headerwritten v2_state].
  rewrite result_bind_ok. cbn [datalength datawritten].
  by rewrite decide_False by (intros Hne; by apply Hne).
Qed.

(** The file v2 writes: the 44-byte header and four bytes per sample. *)
Lemma v2_write_wav (samples : list float64) :
  Forall (λ x, float32_overflows x = false) samples →
  36 + 4 * Z.of_nat (length samples) < 4294967296 →
  V2Encoder.write_wav samples
  = Ok (v2_header (4 * Z.of_nat (length samples)) ++ float32_payload samples).
Proof.
  intros Hfit Hbound.
  assert (V2Encoder.write_wav samples
          = (w ← for_each (λ w sample, data ← pack_f sample; writeframes data w)
                   samples (v2_configured (Z.of_nat (length samples)));
             w ← wave_close w; Ok (file w))) as -> by reflexivity.
  destruct Hfit as [|x rest Hx Hrest]; [reflexivity|].
  cbn [for_each]. rewrite (pack_f_ok x Hx), result_bind_ok.
  rewrite length_cons, Nat2Z.inj_succ in Hbound |- *.
  rewrite v2_writeframes_first by (by rewrite ?length_le_bytes; lia).
  rewrite result_bind_ok, v2_loop by (done || lia).
  rewrite result_bind_ok, v2_close, result_bind_ok.
  cbn [file v2_state]. f_equal. unfold float32_payload. rewrite bind_cons.
  do 2 f_equal. lia.
Qed.

Example binary32_examples :
  binary32 (dec 1 2) = 0x3F000000 ∧ binary32 (dec (-1) 1) = 0xBF800000
  ∧ binary32 (dec 1 10) = 0x3DCCCCCD ∧ binary32 (dec 3 4) = 0x3F400000
  ∧ binary32 (Fin (Q2Qc (1 # 2 ^ 149))) = 1
  ∧ binary32 (fZ (2 ^ 128)) = 0x7F800000
  ∧ float32_overflows (fZ (2 ^ 128)) = true
  ∧ float32_overflows (dec 1 1) = false.
Proof. by vm_compute. Qed.

(** The bytes of v1's file between the RIFF size and the data size. *)
Definition v1_middle (count : nat) : list Z :=
  V1Encoder.wavfile_header SAMPLE_RATE count ++ bytes_of "data".

Lemma length_v1_middle (count : nat) : length (v1_middle count) = 46%nat.
Proof. reflexivity. Qed.

(** The file v1 writes: a 58-byte header and four bytes per sample. *)
Lemma v1_wavfile_write (samples : list float64) :
  50 + 4 * Z.of_nat (length samples) < 4294967296 →
  V1Encoder.wavfile_write SAMPLE_RATE samples
  = Ok (bytes_of "RIFF" ++ le_bytes 4 (50 + 4 * Z.of_nat (length samples))
        ++ v1_middle (length samples)
        ++ le_bytes 4 (4 * Z.of_nat (length samples))
        ++ float32_payload samples).
Proof.
  intros Hbound. unfold V1Encoder.wavfile_write.
  set (hdr := V1Encoder.wavfile_header SAMPLE_RATE (length samples)).
  assert (length hdr = 42%nat) as Hhdr by reflexivity.
  rewrite decide_False.
  2: { rewrite !length_app, Hhdr. simpl length. lia. }
  f_equal.
  rewrite <- !app_assoc.
  rewrite (overwrite_app 4 [0; 0; 0; 0]) by done.
  do 2 f_equal.
  - rewrite !length_app, Hhdr, length_le_bytes, length_float32_payload.
    simpl length. f_equal. lia.
  - unfold v1_middle. fold hdr. rewrite <- !app_assoc. do 2 f_equal.
    by rewrite Nat2Z.inj_mul.
Qed.

(** A RIFF/WAVE file with a format chunk of [fmt_len] bytes, mono,
    44100 Hz, 32 bits per sample, whose data chunk starts at [data_off]
    and holds exactly [payload]. *)
Definition wav_layout (out : list Z) (fmt_len : Z) (data_off : nat)
    (payload : list Z) : Prop :=
  take 4 out = bytes_of "RIFF"
  ∧ field 4 4 out = Z.of_nat (length out) - 8
  ∧ take 4 (drop 8 out) = bytes_of "WAVE"
  ∧ take 4 (drop 12 out) = bytes_of "fmt "
  ∧ field 16 4 out = fmt_len
  ∧ field 22 2 out = 1
  ∧ field 24 4 out = 44100
  ∧ field 28 4 out = 44100 * 4
  ∧ field 32 2 out = 4
  ∧ field 34 2 out = 32
  ∧ take 4 (drop data_off out) = bytes_of "data"
  ∧ field (data_off + 4) 4 out = Z.of_nat (length payload)
  ∧ drop (data_off + 8) out = payload.

Lemma v2_layout (dlen : Z) (payload : list Z) :
  dlen = Z.of_nat (length payload) → 36 + dlen < 4294967296 →
  wav_layout (v2_header dlen ++ payload) 16 36 payload
  ∧ field 4 4 (v2_header dlen ++ payload) = 36 + dlen.
Proof.
  intros Hd Hb. unfold v2_header.
  assert (field 4 4 ((bytes_of "RIFF" ++ le_bytes 4 (36 + dlen) ++ v2_middle
                      ++ le_bytes 4 dlen) ++ payload) = 36 + dlen) as Hsize.
  { rewrite <- !app_assoc. rewrite field_at by (by rewrite ?length_le_bytes).
    apply le_value_le_bytes_small. change (256 ^ Z.of_nat 4) with 4294967296. lia. }
  split; [|exact Hsize].
  unfold wav_layout. rewrite Hsize.
  split; [reflexivity|]. split.
  { rewrite !length_app, !length_le_bytes, length_v2_middle. simpl length. lia. }
  repeat (split; [reflexivity|]). split.
  - rewrite <- !app_assoc.
    rewrite (app_assoc (bytes_of "RIFF")), (app_assoc (_ ++ _) v2_middle).
    rewrite field_at.
    + rewrite le_value_le_bytes_small; [done|].
      change (256 ^ Z.of_nat 4) with 4294967296. lia.
    + by rewrite !length_app, length_le_bytes, length_v2_middle.
    + by rewrite length_le_bytes.
  - reflexivity.
Qed.

Lemma v1_layout (count : nat) (dlen : Z) (payload : list Z) :
  dlen = Z.of_nat (length payload) → 50 + dlen < 4294967296 →
  let out := bytes_of "RIFF" ++ le_bytes 4 (50 + dlen) ++ v1_middle count
             ++ le_bytes 4 dlen ++ payload in
  wav_layout out 18 50 payload
  ∧ field 4 4 out = 50 + dlen
  ∧ field 20 2 out = WAVE_FORMAT_IEEE_FLOAT.
Proof.
  intros Hd Hb out.
  assert (field 4 4 out = 50 + dlen) as Hsize.
  { unfold out. rewrite field_at by (by rewrite ?length_le_bytes).
    apply le_value_le_bytes_small. change (256 ^ Z.of_nat 4) with 4294967296. lia. }
  split; [|split; [exact Hsize|reflexivity]].
  unfold wav_layout. rewrite Hsize.
  split; [reflexivity|]. split.
  { unfold out.
    rewrite !length_app, !length_le_bytes, length_v1_middle. simpl length. lia. }
  repeat (split; [reflexivity|]). split.
  - unfold out.
    rewrite (app_assoc (bytes_of "RIFF")), (app_assoc (_ ++ _) (v1_middle count)).
    rewrite field_at.
    + rewrite le_value_le_bytes_small; [done|].
      change (256 ^ Z.of_nat 4) with 4294967296. lia.
    + by rewrite !length_app, length_le_bytes, length_v1_middle.
    + by rewrite length_le_bytes.
  - reflexivity.
Qed.

(** The data chunk holds the samples in order, four bytes each. *)
Lemma float32_payload_lookup (samples : list float64) (i : nat) (x : float64) :
  samples !! i = Some x →
  take 4 (drop (4 * i) (float32_payload samples)) = le_bytes 4 (binary32 x).
Proof.
  unfold float32_payload. revert i.
  induction samples as [|y l IH]; intros i Hi; [done|].
  rewrite bind_cons. destruct i as [|i].
  - injection Hi as ->. by rewrite Nat.mul_0_r, drop_0, take_app_length'.
  - replace (4 * S i)%nat with (length (le_bytes 4 (binary32 y)) + 4 * i)%nat
      by (rewrite length_le_bytes; lia).
    rewrite drop_app_add. by apply IH.
Qed.

(** C2 (as amended).  For a buffer of N samples that fit binary32, in a
    file below 4 GiB, both encoders write a little-endian RIFF/WAVE
    container declaring one channel, 44100 Hz and 32 bits per sample,
    whose data chunk is exactly the 4N bytes of the samples as
    sequential binary32 values and whose top-level size field is the
    file length minus 8: 36 + 4N with the 16-byte format chunk of v2,
    50 + 4N with the 18-byte format chunk (IEEE float) and the fact
    chunk of v1. *)
Theorem wav_container (samples : list float64) :
  Forall (λ x, float32_overflows x = false) samples →
  50 + 4 * Z.of_nat (length samples) < 4294967296 →
  let data := float32_payload samples in
  length data = (4 * length samples)%nat
  ∧ (∀ i x, samples !! i = Some x →
       take 4 (drop (4 * i) data) = le_bytes 4 (binary32 x))
  ∧ (∃ out, V2Encoder.write_wav samples = Ok out
          ∧ wav_layout out 16 36 data
          ∧ field 4 4 out = 36 + Z.of_nat (length data))
  ∧ (∃ out, V1Encoder.wavfile_write SAMPLE_RATE samples = Ok out
          ∧ wav_layout out 18 50 data
          ∧ field 4 4 out = 50 + Z.of_nat (length data)
          ∧ field 20 2 out = WAVE_FORMAT_IEEE_FLOAT).
Proof.
  intros Hfit Hbound data.
  pose proof (length_float32_payload samples) as Hlen. fold data in Hlen.
  assert (4 * Z.of_nat (length samples) = Z.of_nat (length data)) as Hd
    by (rewrite Hlen; lia).
  split; [exact Hlen|]. split; [apply float32_payload_lookup|]. split.
  - eexists. split; [apply v2_write_wav; [done|lia]|].
    rewrite Hd. apply v2_layout; [done|lia].
  - eexists. split; [by apply v1_wavfile_write|].
    rewrite Hd.
    apply (v1_layout (length samples) (Z.of_nat (length data)) data); [done|lia].
Qed.

Lemma wav_container_witness :
  let data := float32_payload [dec 1 2; dec (-1) 1] in
  length data = (4 * length [dec 1 2; dec (-1) 1])%nat
  ∧ (∀ i x, [dec 1 2; dec (-1) 1] !! i = Some x →
       take 4 (drop (4 * i) data) = le_bytes 4 (binary32 x))
  ∧ (∃ out, V2Encoder.write_wav [dec 1 2; dec (-1) 1] = Ok out
          ∧ wav_layout out 16 36 data
          ∧ field 4 4 out = 36 + Z.of_nat (length data))
  ∧ (∃ out, V1Encoder.wavfile_write SAMPLE_RATE [dec 1 2; dec (-1) 1] = Ok out
          ∧ wav_layout out 18 50 data
          ∧ field 4 4 out = 50 + Z.of_nat (length data)
          ∧ field 20 2 out = WAVE_FORMAT_IEEE_FLOAT).
Proof.
  apply (wav_container [dec 1 2; dec (-1) 1]).
  - by repeat constructor.
  - simpl. lia.
Defined.

(** C2 as stated fails on a one-sample buffer: the file of v2 declares
    integer PCM (format tag 1), and the size field of v1's file is
    50 + 4, not 36 + 4. *)
Lemma wav_container_counterexample :
  (∃ out, V2Encoder.write_wav [dec 1 2] = Ok out
        ∧ field 20 2 out = WAVE_FORMAT_PCM
        ∧ field 20 2 out ≠ WAVE_FORMAT_IEEE_FLOAT)
  ∧ (∃ out, V1Encoder.wavfile_write SAMPLE_RATE [dec 1 2] = Ok out
          ∧ field 20 2 out = WAVE_FORMAT_IEEE_FLOAT
          ∧ field 4 4 out = 54
          ∧ field 4 4 out ≠ 36 + 4).
Proof. split; eexists; (split; [by vm_compute|]); by vm_compute. Qed.

(** ** Determinism of the seeded noise spectra (claim C1) *)

Section noise.
Context `{NumPy}.

(** A computation that reads and writes nothing but the generator: its
    value and the generator it leaves are determined by the generator
    it starts from. *)
Definition rng_only {A} (m : M A) : Prop :=
  ∀ w1 w2, np_rng w1 = np_rng w2 →
    (m w1).1 = (m w2).1 ∧ np_rng (m w1).2 = np_rng (m w2).2.

Lemma rng_only_ret {A} (a : A) : rng_only (mret a).
Proof. by intros w1 w2 Hg. Qed.

Lemma rng_only_bind {A B} (m : M A) (f : A → M B) :
  rng_only m → (∀ a, rng_only (f a)) → rng_only (m ≫= f).
Proof.
  intros Hm Hf w1 w2 Hg. destruct (Hm w1 w2 Hg) as [Hv Hr].
  unfold mbind, M_mbind, M_bind.
  destruct (m w1) as [[a1|e1] w1'], (m w2) as [[a2|e2] w2']; simpl in *;
    try discriminate.
  - injection Hv as ->. by apply Hf.
  - by injection Hv as ->.
Qed.

Lemma rng_only_uniform (low high : float64) :
  rng_only (np_random_uniform low high).
Proof.
  intros w1 w2 Hg. unfold np_random_uniform. rewrite Hg.
  by destruct (rng_double (np_rng w2)).
Qed.




(** The noise of v1 (entries 14 and 19) is drawn from the generator as
    the process finds it: its samples are a function of that state. *)
Lemma rng_only_uniform_array (low high : float64) (n : nat) :
  rng_only (np_random_uniform_array low high n).
Proof.
  induction n as [|n IH]; [apply (rng_only_ret [])|].
  cbn [np_random_uniform_array].
  apply (rng_only_bind (np_random_uniform low high)); [apply rng_only_uniform|].
  intros x. apply (rng_only_bind _ (λ rest, M_ret (x :: rest))); [apply IH|].
  intros rest. apply (rng_only_ret (x :: rest)).
Qed.

Lemma v1_noise_follows_generator :
  rng_only V1Run.earthquake ∧ rng_only V1Run.breath.
Proof.
  split; (apply rng_only_bind; [apply rng_only_uniform_array|]);
    intros noise; apply rng_only_ret.
Qed.

End noise.

(** ** The run of v1 (claims C5 and C4) *)

Section run_facts.
Context `{NumPy}.

Definition with_rng (g : rng_state) (w : world) : world :=
  {| fs_files := fs_files w; fs_dirs := fs_dirs w; fs_denied := fs_denied w;
     out_lines := out_lines w; np_rng := g |}.

(** A recipe that returns a full table of samples, whatever their
    values, and touches nothing but the generator. *)
Definition yields (recipe : M (list float64)) : Prop :=
  ∀ w, ∃ samples g,
    recipe w = (Ok samples, with_rng g w) ∧ length samples = 2048%nat.

(** What a stretch of the run did: the files of [names] were written,
    [lines] were printed, and nothing else changed on disk. *)
Definition effect (names : list string) (lines : list line)
    (w w' : world) : Prop :=
  fs_denied w' = fs_denied w
  ∧ dom (fs_files w') = dom (fs_files w) ∪ list_to_set (V1Run.wav_path <$> names)
  ∧ (∀ p, p ∉ V1Run.wav_path <$> names → fs_files w' !! p = fs_files w !! p)
  ∧ out_lines w' = out_lines w ++ lines.

Definition generated_line (name : string) : line :=
  Generated (name +:+ ".wav") 2048.

Lemma effect_refl (w : world) : effect [] [] w w.
Proof.
  unfold effect. rewrite app_nil_r. split_and!; [done|set_solver|done|done].
Qed.

Lemma effect_with_rng (g : rng_state) (w : world) : effect [] [] w (with_rng g w).
Proof.
  unfold effect, with_rng; simpl. rewrite app_nil_r.
  split_and!; [done|set_solver|done|done].
Qed.

Lemma effect_trans (n1 n2 : list string) (l1 l2 : list line) (w w1 w2 : world) :
  effect n1 l1 w w1 → effect n2 l2 w1 w2 → effect (n1 ++ n2) (l1 ++ l2) w w2.
Proof.
  intros (Hd1 & Hf1 & Hu1 & Ho1) (Hd2 & Hf2 & Hu2 & Ho2). unfold effect.
  split_and!.
  - congruence.
  - rewrite Hf2, Hf1, fmap_app, list_to_set_app_L. set_solver.
  - intros p Hp. rewrite fmap_app, elem_of_app in Hp.
    rewrite Hu2, Hu1; [done|tauto|tauto].
  - by rewrite Ho2, Ho1, app_assoc.
Qed.

Lemma effect_print (l : line) (w : world) :
  ∃ w', print l w = (Ok tt, w') ∧ effect [] [l] w w'.
Proof.
  eexists. split; [done|]. unfold effect; simpl.
  split_and!; [done|set_solver|done|done].
Qed.

Lemma normalize_ok (samples : list float64) :
  samples ≠ [] →
  ∃ out, V1.normalize samples = Ok out ∧ length out = length samples.
Proof.
  intros Hne. unfold V1.normalize.
  destruct (np_max_nonempty (np_abs samples)) as [m ->].
  { unfold np_abs. by destruct samples. }
  unfold mbind, result_mbind, result_bind.
  destruct (fgt m (Fin 0)); eexists; (split; [done|]);
    by rewrite ?length_fmap.
Qed.

(** [save_wavetable] on a writable disk. *)
Lemma save_wavetable_ok (name : string) (samples : list float64) (w : world) :
  length samples = 2048%nat →
  OUTPUT_DIR ∉ fs_denied w → V1Run.wav_path name ∉ fs_denied w →
  ∃ w', V1Run.save_wavetable name samples w = (Ok tt, w')
      ∧ effect [name] [generated_line name] w w'
      ∧ np_rng w' = np_rng w.
Proof.
  intros Hlen Hdir Hpath.
  destruct (normalize_ok samples) as (out & Hout & Hlen').
  { intros ->. done. }
  unfold V1Run.save_wavetable, mbind, M_mbind, M_bind, os_makedirs.
  rewrite decide_False by done. unfold lift. rewrite Hout.
  unfold V1Run.wavfile_write. cbn [fs_denied].
  rewrite decide_False by done.
  rewrite v1_wavfile_write by (rewrite Hlen', Hlen; lia).
  eexists. split; [done|]. unfold effect, set_file; simpl.
  split_and!; [done| |intros p Hp|by rewrite Hlen', Hlen|done].
  - rewrite dom_insert_L. set_solver.
  - apply lookup_insert_ne. set_solver.
Qed.

(** [save_wavetable] when the file cannot be written: [OSError], and
    no file is touched. *)
Lemma save_wavetable_denied (name : string) (samples : list float64) (w : world) :
  length samples = 2048%nat →
  OUTPUT_DIR ∉ fs_denied w → V1Run.wav_path name ∈ fs_denied w →
  ∃ w', V1Run.save_wavetable name samples w
        = (Raise (OSError (V1Run.wav_path name)), w')
      ∧ effect [] [] w w'.
Proof.
  intros Hlen Hdir Hpath.
  destruct (normalize_ok samples) as (out & Hout & Hlen').
  { intros ->. done. }
  unfold V1Run.save_wavetable, mbind, M_mbind, M_bind, os_makedirs.
  rewrite decide_False by done. unfold lift. rewrite Hout.
  unfold V1Run.wavfile_write. cbn [fs_denied].
  rewrite decide_True by done.
  eexists. split; [done|]. unfold effect; simpl. rewrite app_nil_r.
  split_and!; [done|set_solver|done|done].
Qed.

Definition writable (names : list string) (w : world) : Prop :=
  (OUTPUT_DIR ∉ fs_denied w)
  ∧ Forall (λ name, V1Run.wav_path name ∉ fs_denied w) names.

Lemma writable_effect (names done_names : list string) (lines : list line)
    (w w' : world) :
  effect done_names lines w w' → writable names w → writable names w'.
Proof. intros (Hd & _) [Hdir Hn]. unfold writable. by rewrite Hd. Qed.

(** A generator function on a writable disk runs to its end. *)
Lemma generate_ok (entries : V1Run.table) (w : world) :
  Forall (λ e, yields e.2) entries → writable (fst <$> entries) w →
  ∃ w', V1Run.generate entries w = (Ok tt, w')
      ∧ effect (fst <$> entries) (generated_line ∘ fst <$> entries) w w'.
Proof.
  intros Hy. revert w. induction Hy as [|[name recipe] rest Hr _ IH]; intros w Hw.
  - exists w. split; [done|apply effect_refl].
  - destruct Hw as [Hdir Hnames]. apply Forall_cons in Hnames as [Hname Hrest].
    destruct (Hr w) as (samples & g & Hrun & Hlen).
    destruct (save_wavetable_ok name samples (with_rng g w) Hlen Hdir Hname)
      as (w1 & Hsave & Heff & _).
    pose proof (effect_trans _ _ _ _ _ _ _ (effect_with_rng g w) Heff) as Heff1.
    destruct (IH w1) as (w' & Hgen & Heff').
    { eapply writable_effect; [exact Heff1|]. by split. }
    exists w'. split.
    + cbn [V1Run.generate]. unfold mbind, M_mbind, M_bind.
      simpl in Hrun. rewrite Hrun, Hsave. exact Hgen.
    + exact (effect_trans _ _ _ _ _ _ _ Heff1 Heff').
Qed.

(** A generator function stops at the first entry whose file cannot be
    written: the exception leaves it, the entries after are not run. *)
Lemma generate_abort (before after : V1Run.table) (name : string)
    (recipe : M (list float64)) (w : world) :
  Forall (λ e, yields e.2) before → yields recipe →
  writable (fst <$> before) w → V1Run.wav_path name ∈ fs_denied w →
  ∃ w', V1Run.generate (before ++ (name, recipe) :: after) w
        = (Raise (OSError (V1Run.wav_path name)), w')
      ∧ effect (fst <$> before) (generated_line ∘ fst <$> before) w w'.
Proof.
  intros Hy Hrecipe. revert w.
  induction Hy as [|[n r] rest Hr _ IH]; intros w Hw Hden.
  - destruct (Hrecipe w) as (samples & g & Hrun & Hlen).
    destruct (save_wavetable_denied name samples (with_rng g w) Hlen)
      as (w1 & Hsave & Heff); [apply Hw|done|].
    exists w1. split.
    + cbn [app V1Run.generate]. unfold mbind, M_mbind, M_bind.
      simpl in Hrun. by rewrite Hrun, Hsave.
    + exact (effect_trans _ _ _ _ _ _ _ (effect_with_rng g w) Heff).
  - destruct Hw as [Hdir Hnames]. apply Forall_cons in Hnames as [Hname Hrest].
    destruct (Hr w) as (samples & g & Hrun & Hlen).
    destruct (save_wavetable_ok n samples (with_rng g w) Hlen Hdir Hname)
      as (w1 & Hsave & Heff & _).
    pose proof (effect_trans _ _ _ _ _ _ _ (effect_with_rng g w) Heff) as Heff1.
    destruct (IH w1) as (w' & Hgen & Heff').
    { eapply writable_effect; [exact Heff1|]. by split. }
    { destruct Heff1 as (Hd & _). by rewrite Hd. }
    exists w'. split.
    + cbn [app V1Run.generate]. unfold mbind, M_mbind, M_bind.
      simpl in Hrun. rewrite Hrun, Hsave. exact Hgen.
    + exact (effect_trans _ _ _ _ _ _ _ Heff1 Heff').
Qed.

Lemma with_rng_same (w : world) : with_rng (np_rng w) w = w.
Proof. by destruct w. Qed.

Lemma over_phase_yields (f : float64 → float64) : yields (V1Run.over_phase f).
Proof.
  intros w. exists (f <$> phase), (np_rng w). split.
  - by rewrite with_rng_same.
  - rewrite length_fmap. apply phase_is_clock.
Qed.

Lemma uniform_array_yields (low high : float64) (n : nat) (w : world) :
  ∃ noise g, np_random_uniform_array low high n w = (Ok noise, with_rng g w)
           ∧ length noise = n.
Proof.
  revert w. induction n as [|n IH]; intros w.
  - exists [], (np_rng w). by rewrite with_rng_same.
  - cbn [np_random_uniform_array]. unfold M_bind at 1.
    unfold np_random_uniform at 1.
    destruct (rng_double (np_rng w)) as [u g1].
    match goal with |- context [M_bind _ _ ?w1] => destruct (IH w1) as (noise & g & Hrun & Hlen) end.
    unfold M_bind at 1. rewrite Hrun. unfold M_ret.
    eexists (_ :: noise), g. split; [done|]. simpl. by rewrite Hlen.
Qed.

Lemma earthquake_yields : yields V1Run.earthquake.
Proof.
  intros w. unfold V1Run.earthquake, mbind, M_mbind, M_bind.
  destruct (uniform_array_yields (fZ (-1)) (fZ 1) (Z.to_nat SAMPLES_PER_CYCLE) w)
    as (noise & g & -> & Hlen).
  eexists _, g. split; [done|].
  rewrite length_zip_with, Hlen. pose proof phase_is_clock as [_ ->]. done.
Qed.

Lemma breath_yields : yields V1Run.breath.
Proof.
  intros w. unfold V1Run.breath, mbind, M_mbind, M_bind.
  destruct (uniform_array_yields (fZ (-1)) (fZ 1) (Z.to_nat SAMPLES_PER_CYCLE) w)
    as (noise & g & -> & Hlen).
  eexists _, g. split; [done|]. by rewrite butter4_filtfilt_length, Hlen.
Qed.

Lemma classic_table_yields : Forall (λ e, yields e.2) V1Run.classic_table.
Proof.
  unfold V1Run.classic_table.
  repeat (apply Forall_cons_2; [apply over_phase_yields|]).
  apply Forall_nil_2.
Qed.

Lemma unique_table_yields : Forall (λ e, yields e.2) V1Run.unique_table.
Proof.
  unfold V1Run.unique_table.
  repeat (apply Forall_cons_2;
          [first [apply over_phase_yields|apply earthquake_yields
                 |apply breath_yields]|]).
  apply Forall_nil_2.
Qed.

Lemma M_bind_ok {A B} (m : M A) (f : A → M B) (a : A) (w w1 : world) :
  m w = (Ok a, w1) → (m ≫= f) w = f a w1.
Proof. intros Hm. unfold mbind, M_mbind, M_bind. by rewrite Hm. Qed.

Lemma M_bind_raise {A B} (m : M A) (f : A → M B) (e : exn) (w w1 : world) :
  m w = (Raise e, w1) → (m ≫= f) w = (Raise e, w1).
Proof. intros Hm. unfold mbind, M_mbind, M_bind. by rewrite Hm. Qed.

Lemma writable_app (n1 n2 : list string) (w : world) :
  writable (n1 ++ n2) w ↔ writable n1 w ∧ writable n2 w.
Proof. unfold writable. rewrite Forall_app. tauto. Qed.

(** The lines of a run that reaches its end. *)
Definition main_lines (classic unique : V1Run.table) : list line :=
  [Text "DSynth Wavetable Generator";
   Text "Generating 20 wavetables (2048 samples @ 44.1kHz)";
   Text "Classic Wavetables (10):"]
  ++ (generated_line ∘ fst <$> classic)
  ++ [Text "Unique/Experimental Wavetables (10):"]
  ++ (generated_line ∘ fst <$> unique)
  ++ [V1Run.complete_line; Text "Usage: ... Wavetable Index Reference: ..."].

(** On a writable disk the main block runs to its end: every entry of
    both tables is written, and the completion line is printed. *)
Lemma main_with_ok (classic unique : V1Run.table) (w : world) :
  Forall (λ e, yields e.2) classic → Forall (λ e, yields e.2) unique →
  writable (fst <$> classic ++ unique) w →
  ∃ w', V1Run.main_with classic unique w = (Ok tt, w')
      ∧ effect (fst <$> classic ++ unique) (main_lines classic unique) w w'.
Proof.
  intros Hc Hu Hw. rewrite fmap_app in Hw |- *.
  apply writable_app in Hw as [Hwc Hwu].
  destruct (effect_print (Text "DSynth Wavetable Generator") w)
    as (w1 & Hp1 & He1).
  destruct (effect_print
              (Text "Generating 20 wavetables (2048 samples @ 44.1kHz)") w1)
    as (w2 & Hp2 & He2).
  destruct (effect_print (Text "Classic Wavetables (10):") w2)
    as (w3 & Hp3 & He3).
  pose proof (effect_trans _ _ _ _ _ _ _ (effect_trans _ _ _ _ _ _ _ He1 He2) He3)
    as He123.
  destruct (generate_ok classic w3 Hc) as (w4 & Hg4 & He4).
  { eapply writable_effect; [exact He123|done]. }
  pose proof (effect_trans _ _ _ _ _ _ _ He123 He4) as He1234.
  destruct (effect_print (Text "Unique/Experimental Wavetables (10):") w4)
    as (w5 & Hp5 & He5).
  pose proof (effect_trans _ _ _ _ _ _ _ He1234 He5) as He12345.
  destruct (generate_ok unique w5 Hu) as (w6 & Hg6 & He6).
  { eapply writable_effect; [exact He12345|done]. }
  pose proof (effect_trans _ _ _ _ _ _ _ He12345 He6) as He6'.
  destruct (effect_print V1Run.complete_line w6) as (w7 & Hp7 & He7).
  destruct (effect_print (Text "Usage: ... Wavetable Index Reference: ...") w7)
    as (w8 & Hp8 & He8).
  pose proof (effect_trans _ _ _ _ _ _ _
                (effect_trans _ _ _ _ _ _ _ He6' He7) He8) as Hall.
  exists w8. split.
  - unfold V1Run.main_with.
    rewrite (M_bind_ok _ _ _ _ _ Hp1), (M_bind_ok _ _ _ _ _ Hp2),
      (M_bind_ok _ _ _ _ _ Hp3), (M_bind_ok _ _ _ _ _ Hg4),
      (M_bind_ok _ _ _ _ _ Hp5), (M_bind_ok _ _ _ _ _ Hg6),
      (M_bind_ok _ _ _ _ _ Hp7). exact Hp8.
  - simpl in Hall. rewrite !app_nil_r in Hall. unfold main_lines.
    rewrite <- !app_assoc in Hall. exact Hall.
Qed.

(** When the file of one entry of the second table cannot be written,
    the main block ends there with the exception: the entries before
    are written, the completion line is not printed. *)
Lemma main_with_abort (classic before after : V1Run.table) (name : string)
    (recipe : M (list float64)) (w : world) :
  Forall (λ e, yields e.2) classic → Forall (λ e, yields e.2) before →
  yields recipe →
  writable (fst <$> classic ++ before) w →
  V1Run.wav_path name ∈ fs_denied w →
  ∃ w', V1Run.main_with classic (before ++ (name, recipe) :: after) w
        = (Raise (OSError (V1Run.wav_path name)), w')
      ∧ effect (fst <$> classic ++ before)
          ([Text "DSynth Wavetable Generator";
            Text "Generating 20 wavetables (2048 samples @ 44.1kHz)";
            Text "Classic Wavetables (10):"]
           ++ (generated_line ∘ fst <$> classic)
           ++ [Text "Unique/Experimental Wavetables (10):"]
           ++ (generated_line ∘ fst <$> before)) w w'.
Proof.
  intros Hc Hb Hr Hw Hden. rewrite fmap_app in Hw |- *.
  apply writable_app in Hw as [Hwc Hwb].
  destruct (effect_print (Text "DSynth Wavetable Generator") w)
    as (w1 & Hp1 & He1).
  destruct (effect_print
              (Text "Generating 20 wavetables (2048 samples @ 44.1kHz)") w1)
    as (w2 & Hp2 & He2).
  destruct (effect_print (Text "Classic Wavetables (10):") w2)
    as (w3 & Hp3 & He3).
  pose proof (effect_trans _ _ _ _ _ _ _ (effect_trans _ _ _ _ _ _ _ He1 He2) He3)
    as He123.
  destruct (generate_ok classic w3 Hc) as (w4 & Hg4 & He4).
  { eapply writable_effect; [exact He123|done]. }
  pose proof (effect_trans _ _ _ _ _ _ _ He123 He4) as He1234.
  destruct (effect_print (Text "Unique/Experimental Wavetables (10):") w4)
    as (w5 & Hp5 & He5).
  pose proof (effect_trans _ _ _ _ _ _ _ He1234 He5) as He12345.
  destruct (generate_abort before after name recipe w5 Hb Hr)
    as (w6 & Hg6 & He6).
  { eapply writable_effect; [exact He12345|done]. }
  { destruct He12345 as (Hd & _). by rewrite Hd. }
  pose proof (effect_trans _ _ _ _ _ _ _ He12345 He6) as Hall.
  exists w6. split.
  - unfold V1Run.main_with.
    rewrite (M_bind_ok _ _ _ _ _ Hp1), (M_bind_ok _ _ _ _ _ Hp2),
      (M_bind_ok _ _ _ _ _ Hp3), (M_bind_ok _ _ _ _ _ Hg4),
      (M_bind_ok _ _ _ _ _ Hp5). by apply M_bind_raise.
  - simpl in Hall. rewrite !app_nil_r in Hall.
    rewrite <- !app_assoc in Hall. exact Hall.
Qed.

End run_facts.

(** A decimal index on two digits, as the file names have it. *)
Definition two_digits (i : nat) : string :=
  String (Ascii.ascii_of_nat (48 + i / 10))
    (String (Ascii.ascii_of_nat (48 + i mod 10)) EmptyString).

(** The display names of the catalog, in order. *)
Definition display_names : list string :=
  ["Pure_Sine"; "Sawtooth"; "Square"; "Triangle"; "PWM_25"; "PWM_12";
   "PPG_Classic"; "Hollow"; "Vocal_Formant"; "Bass_Guitar";
   "Stairs"; "Fractal"; "Crystal"; "Earthquake"; "Laser"; "Vowel_Morph";
   "Binary"; "Alien"; "Breath"; "Harmonic_Decay"].

(** The output file of the entry with index [i] and display name [d]. *)
Definition output_file (i : nat) (d : string) : string :=
  OUTPUT_DIR +:+ "/" +:+ two_digits i +:+ "_" +:+ d +:+ ".wav".

(** A process with an empty disk on which everything may be written. *)
Definition empty_world : world (H := toy_numpy) :=
  @Build_world toy_numpy ∅ ∅ ∅ [] 0.

Section run_claims.
Context `{NumPy}.

Lemma catalog_names :
  fst <$> V1Run.classic_table ++ V1Run.unique_table
  = zip_with (λ i d, two_digits i +:+ "_" +:+ d) (seq 1 20) display_names.
Proof. reflexivity. Qed.

Lemma catalog_paths :
  V1Run.wav_path <$> (fst <$> V1Run.classic_table ++ V1Run.unique_table)
  = zip_with output_file (seq 1 20) display_names.
Proof. reflexivity. Qed.

Lemma catalog_paths_NoDup :
  NoDup (zip_with output_file (seq 1 20) display_names).
Proof. apply (bool_decide_unpack _). by vm_compute. Qed.

Lemma index_prefixes_NoDup : NoDup (two_digits <$> seq 1 20).
Proof. apply (bool_decide_unpack _). by vm_compute. Qed.

(** C5.  A complete run writes exactly 20 files: the files named
    [<two-digit index>_<DisplayName>.wav] for the 20 display names of
    the catalog, with the indices 01, 02, ..., 20 in order (contiguous
    from 1, pairwise distinct), no two entries sharing a file. *)
Theorem catalog_files (w : world) :
  writable (fst <$> V1Run.classic_table ++ V1Run.unique_table) w →
  ∃ w' written,
    V1Run.main w = (Ok tt, w')
    ∧ written = zip_with output_file (seq 1 20) display_names
    ∧ dom (fs_files w') = dom (fs_files w) ∪ list_to_set written
    ∧ (∀ p, p ∉ written → fs_files w' !! p = fs_files w !! p)
    ∧ length written = 20%nat
    ∧ NoDup written
    ∧ NoDup (two_digits <$> seq 1 20).
Proof.
  intros Hw.
  destruct (main_with_ok V1Run.classic_table V1Run.unique_table w)
    as (w' & Hrun & _ & Hdom & Hother & _);
    [apply classic_table_yields|apply unique_table_yields|done|].
  exists w', (zip_with output_file (seq 1 20) display_names).
  rewrite catalog_paths in Hdom, Hother.
  split_and!; [exact Hrun|done|exact Hdom|exact Hother|done
              |apply catalog_paths_NoDup|apply index_prefixes_NoDup].
Qed.

End run_claims.

Lemma catalog_files_witness :
  ∃ w' written,
    V1Run.main empty_world = (Ok tt, w')
    ∧ written = zip_with output_file (seq 1 20) display_names
    ∧ dom (fs_files w') = dom (fs_files empty_world) ∪ list_to_set written
    ∧ (∀ p, p ∉ written → fs_files w' !! p = fs_files empty_world !! p)
    ∧ length written = 20%nat
    ∧ NoDup written
    ∧ NoDup (two_digits <$> seq 1 20).
Proof.
  apply (catalog_files (H := toy_numpy) empty_world).
  split; [apply not_elem_of_empty|].
  apply Forall_forall. intros name _. apply not_elem_of_empty.
Defined.

(** ** No error handling in the run (claim C4) *)

Lemma fold_np_maximum_nan (l : list float64) : fold_left np_maximum l NaN = NaN.
Proof. induction l as [|x l IH]; [done|]. exact IH. Qed.

Lemma fold_np_maximum_has_nan (l : list float64) (x : float64) :
  NaN ∈ l → fold_left np_maximum l x = NaN.
Proof.
  revert x. induction l as [|y l IH]; intros x Hin; [by apply elem_of_nil in Hin|].
  apply elem_of_cons in Hin as [<-|Hin]; simpl.
  - replace (np_maximum x NaN) with NaN by (by destruct x).
    apply fold_np_maximum_nan.
  - by apply IH.
Qed.

(** A buffer with a NaN has a NaN peak, which is not [> 0]: [normalize]
    returns the buffer as it is, and raises nothing. *)
Lemma normalize_nan (samples : list float64) :
  NaN ∈ samples → V1.normalize samples = Ok samples.
Proof.
  intros Hin. unfold V1.normalize.
  assert (np_max (np_abs samples) = Ok NaN) as ->; [|done].
  assert (NaN ∈ np_abs samples) as Habs.
  { unfold np_abs. apply (list_elem_of_fmap_2 fabs _ NaN Hin). }
  destruct (np_abs samples) as [|x l]; [by apply elem_of_nil in Habs|].
  simpl. f_equal. apply elem_of_cons in Habs as [<-|Habs].
  - apply fold_np_maximum_nan.
  - by apply fold_np_maximum_has_nan.
Qed.

Section failure_isolation.
Context `{NumPy}.

(** [save_wavetable] on a buffer with a NaN: the file is written, with
    the samples encoded as they are. *)
Lemma save_wavetable_nan (name : string) (samples : list float64) (w : world) :
  length samples = 2048%nat → NaN ∈ samples →
  (OUTPUT_DIR ∉ fs_denied w) → (V1Run.wav_path name ∉ fs_denied w) →
  ∃ w' content,
    V1Run.save_wavetable name samples w = (Ok tt, w')
    ∧ V1Encoder.wavfile_write SAMPLE_RATE samples = Ok content
    ∧ fs_files w' !! V1Run.wav_path name = Some content.
Proof.
  intros Hlen Hnan Hdir Hpath.
  unfold V1Run.save_wavetable, mbind, M_mbind, M_bind, os_makedirs.
  rewrite decide_False by done. unfold lift. rewrite normalize_nan by done.
  unfold V1Run.wavfile_write. cbn [fs_denied].
  rewrite decide_False by done.
  rewrite v1_wavfile_write by (rewrite Hlen; lia).
  eexists _, _. split; [done|]. split; [done|].
  unfold set_file; simpl. apply lookup_insert_eq.
Qed.

(** C4 (as amended).  The run has no error handling of its own.  Take
    any tables whose recipes return full buffers, of whatever values,
    finite or not, and single out one entry of the second table.
    - When its file can be written, the run reaches its end: all
      entries are written, the completion line is printed, the exit
      status is 0; nothing reports a failure.
    - When its file cannot be written, the [OSError] leaves the main
      block: the entries before are written, those after are not, the
      completion line is not printed, the exit status is 1.
    - A buffer with a NaN is saved like any other, unnormalized. *)
Theorem no_failure_isolation (classic before after : V1Run.table)
    (name : string) (recipe : M (list float64)) (w : world) :
  Forall (λ e, yields e.2) classic → Forall (λ e, yields e.2) before →
  yields recipe → Forall (λ e, yields e.2) after →
  writable (fst <$> classic ++ before ++ after) w →
  let unique := before ++ (name, recipe) :: after in
  ((V1Run.wav_path name ∉ fs_denied w) →
     ∃ w', V1Run.main_with classic unique w = (Ok tt, w')
         ∧ exit_status (V1Run.main_with classic unique w).1 = 0
         ∧ effect (fst <$> classic ++ unique) (main_lines classic unique) w w'
         ∧ V1Run.complete_line ∈ main_lines classic unique)
  ∧ ((V1Run.wav_path name ∈ fs_denied w) →
     ∃ w' lines,
         V1Run.main_with classic unique w
         = (Raise (OSError (V1Run.wav_path name)), w')
         ∧ exit_status (V1Run.main_with classic unique w).1 = 1
         ∧ effect (fst <$> classic ++ before) lines w w'
         ∧ V1Run.complete_line ∉ lines)
  ∧ (∀ samples w0, length samples = 2048%nat → NaN ∈ samples →
       (OUTPUT_DIR ∉ fs_denied w0) → (V1Run.wav_path name ∉ fs_denied w0) →
       ∃ w' content,
         V1Run.save_wavetable name samples w0 = (Ok tt, w')
         ∧ V1Encoder.wavfile_write SAMPLE_RATE samples = Ok content
         ∧ fs_files w' !! V1Run.wav_path name = Some content).
Proof.
  intros Hc Hb Hr Ha Hw unique.
  rewrite !fmap_app in Hw.
  apply writable_app in Hw as [Hwc Hw]. apply writable_app in Hw as [Hwb Hwa].
  split; [|split].
  - intros Hname.
    destruct (main_with_ok classic unique w) as (w' & Hrun & Heff).
    + done.
    + unfold unique. apply Forall_app. split; [done|]. by apply Forall_cons.
    + unfold unique. rewrite !fmap_app, fmap_cons.
      apply writable_app. split; [done|]. apply writable_app. split; [done|].
      destruct Hwa as [Hdir Hwa]. split; [done|]. by apply Forall_cons.
    + exists w'. rewrite Hrun. split_and!; [done|done|done|].
      unfold main_lines. rewrite !elem_of_app, !elem_of_cons. tauto.
  - intros Hname. subst unique.
    destruct (main_with_abort classic before after name recipe w)
      as (w' & Hrun & Heff); [done..| |done|].
    { rewrite fmap_app. apply writable_app. by split. }
    eexists w', _. rewrite Hrun. split_and!; [done|done|exact Heff|].
    rewrite !elem_of_app, !elem_of_cons, !list_elem_of_fmap.
    unfold V1Run.complete_line, generated_line.
    intros [[?|[?|[?|?%elem_of_nil]]]|[(e & ? & _)|[[?|?%elem_of_nil]|(e & ? & _)]]];
      by simplify_eq/=.
  - intros samples w0. apply save_wavetable_nan.
Qed.

End failure_isolation.

(** A run in which the recipe of entry 13 returns nothing but NaN. *)
Definition nan_recipe : M (H := toy_numpy) (list float64) :=
  V1Run.over_phase (λ _, NaN).

Definition unique_with_nan : V1Run.table (H := toy_numpy) :=
  take 2 V1Run.unique_table ++ ("13_Crystal", nan_recipe)
    :: drop 3 V1Run.unique_table.

(** A disk on which the file of entry 13 cannot be written. *)
Definition crystal_denied : world (H := toy_numpy) :=
  @Build_world toy_numpy ∅ ∅ {[ V1Run.wav_path "13_Crystal" ]} [] 0.

Lemma nan_recipe_yields : yields nan_recipe.
Proof. apply over_phase_yields. Qed.

Lemma nan_recipe_samples (w : world (H := toy_numpy)) :
  ∃ samples, nan_recipe w = (Ok samples, w) ∧ NaN ∈ samples.
Proof.
  eexists. split; [reflexivity|].
  pose proof phase_is_clock as [_ Hlen].
  destruct phase as [|p ps]; [done|]. rewrite fmap_cons. apply list_elem_of_here.
Qed.

Lemma before_13_yields :
  Forall (λ e, yields e.2) (take 2 (V1Run.unique_table (H := toy_numpy))).
Proof. apply Forall_take, unique_table_yields. Qed.

Lemma after_13_yields :
  Forall (λ e, yields e.2) (drop 3 (V1Run.unique_table (H := toy_numpy))).
Proof. apply Forall_drop, unique_table_yields. Qed.

Lemma unique_with_nan_paths :
  V1Run.wav_path <$> (fst <$> V1Run.classic_table ++ unique_with_nan)
  = zip_with output_file (seq 1 20) display_names.
Proof. reflexivity. Qed.

Lemma before_13_paths :
  V1Run.wav_path
    <$> (fst <$> V1Run.classic_table ++ take 2 (V1Run.unique_table (H := toy_numpy)))
  = zip_with output_file (seq 1 12) display_names.
Proof. reflexivity. Qed.

Lemma no_failure_isolation_witness :
  let unique := unique_with_nan in
  ((V1Run.wav_path "13_Crystal" ∉ fs_denied empty_world) →
     ∃ w', V1Run.main_with V1Run.classic_table unique empty_world = (Ok tt, w')
         ∧ exit_status (V1Run.main_with V1Run.classic_table unique empty_world).1 = 0
         ∧ effect (fst <$> V1Run.classic_table ++ unique)
             (main_lines V1Run.classic_table unique) empty_world w'
         ∧ V1Run.complete_line ∈ main_lines V1Run.classic_table unique)
  ∧ ((V1Run.wav_path "13_Crystal" ∈ fs_denied empty_world) →
     ∃ w' lines,
         V1Run.main_with V1Run.classic_table unique empty_world
         = (Raise (OSError (V1Run.wav_path "13_Crystal")), w')
         ∧ exit_status (V1Run.main_with V1Run.classic_table unique empty_world).1 = 1
         ∧ effect (fst <$> V1Run.classic_table
                         ++ take 2 (V1Run.unique_table (H := toy_numpy)))
             lines empty_world w'
         ∧ V1Run.complete_line ∉ lines)
  ∧ (∀ samples (w0 : world (H := toy_numpy)), length samples = 2048%nat → NaN ∈ samples →
       (OUTPUT_DIR ∉ fs_denied w0) →
       (V1Run.wav_path "13_Crystal" ∉ fs_denied w0) →
       ∃ w' content,
         V1Run.save_wavetable "13_Crystal" samples w0 = (Ok tt, w')
         ∧ V1Encoder.wavfile_write SAMPLE_RATE samples = Ok content
         ∧ fs_files w' !! V1Run.wav_path "13_Crystal" = Some content).
Proof.
  apply (no_failure_isolation (H := toy_numpy) V1Run.classic_table
           (take 2 V1Run.unique_table) (drop 3 V1Run.unique_table)
           "13_Crystal" nan_recipe empty_world).
  - apply classic_table_yields.
  - apply before_13_yields.
  - apply nan_recipe_yields.
  - apply after_13_yields.
  - split; [apply not_elem_of_empty|].
    apply Forall_forall. intros name _. apply not_elem_of_empty.
Defined.

(** C4 as stated fails.  With a recipe of entry 13 that returns NaN
    samples, the run reports no failure: it ends normally with exit
    status 0, having written all 20 files, that of entry 13 among them.
    And when saving entry 13 does raise, the exception is not caught:
    the run ends there, with 12 files written and none of the entries
    14 to 20. *)
Lemma failure_isolation_counterexample :
  (∃ r w', V1Run.main_with V1Run.classic_table unique_with_nan empty_world = (r, w')
         ∧ r = Ok tt ∧ exit_status r = 0
         ∧ V1Run.wav_path "13_Crystal" ∈ dom (fs_files w')
         ∧ size (dom (fs_files w')) = 20%nat
         ∧ V1Run.complete_line ∈ out_lines w')
  ∧ (∃ r w', V1Run.main_with V1Run.classic_table unique_with_nan crystal_denied = (r, w')
           ∧ r = Raise (OSError (V1Run.wav_path "13_Crystal"))
           ∧ exit_status r = 1
           ∧ size (dom (fs_files w')) = 12%nat
           ∧ V1Run.wav_path "14_Earthquake" ∉ dom (fs_files w')
           ∧ V1Run.wav_path "20_Harmonic_Decay" ∉ dom (fs_files w')).
Proof.
  split.
  - destruct (main_with_ok (H := toy_numpy) V1Run.classic_table unique_with_nan
                empty_world) as (w' & Hrun & _ & Hdom & _ & Hout).
    + apply classic_table_yields.
    + apply Forall_app. split; [apply before_13_yields|].
      apply Forall_cons. split; [apply nan_recipe_yields|apply after_13_yields].
    + split; [apply not_elem_of_empty|].
      apply Forall_forall. intros name _. apply not_elem_of_empty.
    + exists (Ok tt), w'. rewrite unique_with_nan_paths in Hdom.
      split_and!; [done|done|done| | |].
      * rewrite Hdom. apply elem_of_union_r, elem_of_list_to_set.
        apply (bool_decide_unpack _). by vm_compute.
      * rewrite Hdom. change (dom (fs_files empty_world)) with (∅ : gset string).
        rewrite (left_id_L ∅ (∪)), size_list_to_set; [done|].
        apply catalog_paths_NoDup.
      * rewrite Hout. unfold main_lines.
        rewrite !elem_of_app, !elem_of_cons. tauto.
  - destruct (main_with_abort (H := toy_numpy) V1Run.classic_table
                (take 2 V1Run.unique_table) (drop 3 V1Run.unique_table)
                "13_Crystal" nan_recipe crystal_denied)
      as (w' & Hrun & _ & Hdom & _).
    + apply classic_table_yields.
    + apply before_13_yields.
    + apply nan_recipe_yields.
    + split; [apply (bool_decide_unpack _); by vm_compute|].
      apply Forall_forall. intros name Hname.
      apply not_elem_of_singleton. revert name Hname. apply Forall_forall.
      apply (bool_decide_unpack _). by vm_compute.
    + apply elem_of_singleton. reflexivity.
    + exists (Raise (OSError (V1Run.wav_path "13_Crystal"))), w'.
      rewrite before_13_paths in Hdom.
      change (dom (fs_files crystal_denied)) with (∅ : gset string) in Hdom.
      rewrite (left_id_L ∅ (∪)) in Hdom.
      split_and!; [exact Hrun|done|done| | |].
      * rewrite Hdom, size_list_to_set; [done|].
        apply (bool_decide_unpack _). by vm_compute.
      * rewrite Hdom, elem_of_list_to_set.
        apply (bool_decide_unpack _). by vm_compute.
      * rewrite Hdom, elem_of_list_to_set.
        apply (bool_decide_unpack _). by vm_compute.
Qed.
